(** * django-tagging: the tag field adapter and the tagging views

    A shallow embedding of [tagging/fields.py] and [tagging/views.py].

    Python objects that are mutated in place (model instances, the field's
    two memo tuples) are threaded explicitly: instances live in a heap
    indexed by object identity, the field is passed and returned.  Classes
    are immutable trees carrying their [__bases__].  Exceptions are values
    of type [exn] returned on the left of a sum. *)

From Stdlib Require Import Ascii.
From stdpp Require Import gmap strings list fin_maps fin_sets functions sorting.

#[local] Set Warnings "-register-all,-clear-no-such-hyp".
#[local] Open Scope Z_scope.

(** ** Python values shared by both files *)

Module Py.

(** A class object: Django's [_meta.app_label], [_meta.module_name] and the
    tuple [__bases__].  Two class objects are the same object exactly when
    they are the same tree. *)
Inductive pyclass : Type :=
  PyClass (app_label : string) (module_name : string) (bases : list pyclass).

Definition app_label (c : pyclass) : string :=
  match c with PyClass a _ _ => a end.

Definition module_name (c : pyclass) : string :=
  match c with PyClass _ m _ => m end.

Definition __bases__ (c : pyclass) : list pyclass :=
  match c with PyClass _ _ bs => bs end.

Lemma pyclass_eq_dec : ∀ c d : pyclass, {c = d} + {c ≠ d}.
Proof.
  fix IH 1. intros [a1 m1 b1] [a2 m2 b2].
  destruct (decide (a1 = a2)) as [->|]; [|right; congruence].
  destruct (decide (m1 = m2)) as [->|]; [|right; congruence].
  destruct (list_eq_dec (A:=pyclass) (dec:=IH) b1 b2) as [->|];
    [left; reflexivity|right; congruence].
Defined.

#[global] Instance pyclass_eq : EqDecision pyclass := pyclass_eq_dec.

(** The root of every hierarchy: [object.__bases__ == ()]. *)
Definition object : pyclass := PyClass "builtins" "object" [].

(** [issubclass(c, cls)]: [c] is [cls] or reaches it through some base. *)
Fixpoint issubclass (c cls : pyclass) : bool :=
  bool_decide (c = cls) ||
  match c with
  | PyClass _ _ bs => existsb (λ b, issubclass b cls) bs
  end.

(** Exceptions raised by the two files. *)
Inductive exn : Type :=
  | AttributeError (msg : string)
  | Http404 (msg : string).

#[global] Instance exn_eq : EqDecision exn.
Proof. solve_decision. Defined.

(** What [lower()] does to ASCII text: the letters A to Z go to a to z.  The
    examples, which are ASCII text, use it; the field itself takes the
    [lower] method of its string values as it finds it (see [__set__]). *)
Definition lower_ascii (c : Ascii.ascii) : Ascii.ascii :=
  let n := Ascii.nat_of_ascii c in
  if ((65 <=? n)%nat && (n <=? 90)%nat)%bool
  then Ascii.ascii_of_nat (n + 32) else c.

Fixpoint ascii_lower (s : string) : string :=
  match s with
  | EmptyString => EmptyString
  | String c s' => String (lower_ascii c) (ascii_lower s')
  end.

(** A model instance: its class, its primary key ([None] until the first
    save) and its attribute dictionary.  The only attributes the field
    touches hold a string or [None]. *)
Record Instance : Type := {
  inst_class : pyclass;
  pk : option Z;
  attrs : gmap string (option string)
}.

(** Object identities and the heap of live instances: every reference
    denotes an object. *)
Abbreviation oid := positive.
Abbreviation Heap := (positive → Instance).

(** [getattr(obj, key, None)] *)
Definition getattr_or_None (h : Heap) (obj : oid) (key : string) : option string :=
  match attrs (h obj) !! key with
  | Some v => v
  | None => None
  end.

(** [setattr(obj, key, v)] *)
Definition setattr (obj : oid) (key : string) (v : option string) (h : Heap) : Heap :=
  <[obj := {| inst_class := inst_class (h obj); pk := pk (h obj);
              attrs := <[key := v]> (attrs (h obj)) |}]> h.

(** The outcome of a call that may raise. *)
Abbreviation Result A := (exn + A)%type.

End Py.

Import Py.

(** ** The tag-storage API ([tagging.models], [tagging.utils])

    These modules of the package are not part of the sources at hand; the
    definitions below follow the specification's description of them. *)

Module Models.

(** Modelled from the spec: the content-type registry, "mapping a model to a
    stable identifier".  The identifier is the pair that both
    [ContentType.objects.get(app_label=..., model=...)] and
    [ContentType.objects.get_for_model] look up. *)
Record ContentType : Type := { ct_app_label : string; ct_model : string }.

#[global] Instance ContentType_eq : EqDecision ContentType.
Proof. solve_decision. Defined.

#[global] Instance ContentType_countable : Countable ContentType :=
  inj_countable' (λ c, (ct_app_label c, ct_model c))
                 (λ p, {| ct_app_label := p.1; ct_model := p.2 |})
                 (λ c, match c with Build_ContentType _ _ => eq_refl end).

Definition get_for_model (model : pyclass) : ContentType :=
  {| ct_app_label := app_label model; ct_model := module_name model |}.

(** Modelled from the spec: the persisted tags and associations, which
    [tagging.models] declares.  A tag is a name; an association is an
    "(entity, tag, content-type) triple".  The table maps every existing tag
    to the set of (content type, object id) pairs it is attached to, the
    reverse relation [Tag.items]. *)
Abbreviation Entity := (ContentType * Z)%type.
Abbreviation TagTable := (gmap string (gset (ContentType * Z))).

(** The tags associated with an entity. *)
Definition tags_of (tbl : TagTable) (e : Entity) : gset string :=
  dom (filter (λ kv, e ∈ kv.2) tbl).

(** Modelled from the spec: the words of a "space-separated" string, read
    left to right with the word in progress in [cur]. *)
Fixpoint split_words (cur : string) (s : string) : list string :=
  match s with
  | EmptyString => if decide (cur = EmptyString) then [] else [cur]
  | String c s' =>
      if decide (c = " "%char)
      then (if decide (cur = EmptyString) then split_words EmptyString s'
            else cur :: split_words EmptyString s')
      else split_words (cur +:+ String c EmptyString) s'
  end.

(** Modelled from the spec: [parse_tag_input] from [tagging.utils], which
    reads back the "space-separated serialization of a set of tag names".
    An absent string ([None]) carries no name. *)
Definition parse_tag_input (input : option string) : list string :=
  match input with
  | None => []
  | Some s => split_words EmptyString s
  end.

(** Modelled from the spec: names joined by single spaces. *)
Fixpoint join_space (l : list string) : string :=
  match l with
  | [] => EmptyString
  | [t] => t
  | t :: l' => t +:+ " " +:+ join_space l'
  end.

(** Modelled from the spec: [edit_string_for_tags] from [tagging.utils], the
    "space-separated serialization of a set of tag names". *)
Definition edit_string_for_tags (tags : list string) : string :=
  join_space tags.

(** Modelled from the spec: [Tag.objects.get_for_object], the persisted
    associations of an instance, under the content type of its own class.
    An instance without primary key has none. *)
Definition get_for_object (tbl : TagTable) (obj : Instance) : list string :=
  match pk obj with
  | Some k => elements (tags_of tbl (get_for_model (inst_class obj), k))
  | None => []
  end.

(** The items of a tag that belong to one content type. *)
Definition items_of_type (ctype : ContentType) (its : gset Entity) : gset Entity :=
  filter (λ e, e.1 = ctype) its.

(** Modelled from the spec: [Tag.objects.usage_for_model], the tags applied
    to any instance of the model. *)
Definition usage_for_model (tbl : TagTable) (model : pyclass) : list string :=
  elements (dom (filter (λ kv, items_of_type (get_for_model model) kv.2 ≠ ∅) tbl)).

(** Modelled from the spec: "removing associations as needed", the
    associations of the entity with tags that are not to be kept. *)
Definition detach (e : Entity) (keep : list string) (tbl : TagTable) : TagTable :=
  map_imap (λ t its, Some (if decide (t ∈ keep) then its else its ∖ {[e]})) tbl.

(** Modelled from the spec: "creating associations as needed", the tag
    being created when it does not exist yet. *)
Definition attach (e : Entity) (t : string) (tbl : TagTable) : TagTable :=
  <[t := {[e]} ∪ default ∅ (tbl !! t)]> tbl.

(** Modelled from the spec: [Tag.objects.update_tags], "update an object's
    tag set": the string is "parsed and diffed against persisted
    associations, creating/removing associations as needed".  An instance
    without primary key is no entity yet and nothing is stored for it. *)
Definition update_tags (tbl : TagTable) (obj : Instance)
    (tag_names : option string) (ctype : ContentType) : TagTable :=
  match pk obj with
  | Some k =>
      let updated_tag_names := parse_tag_input tag_names in
      foldr (attach (ctype, k)) (detach (ctype, k) updated_tag_names tbl)
            updated_tag_names
  | None => tbl
  end.

(** Modelled from the spec: [get_tag] from [tagging.utils],
    "resolve-tag-by-name"; [None] when no such tag exists. *)
Definition get_tag (tbl : TagTable) (tag : string) : option string :=
  if decide (tag ∈ dom tbl) then Some tag else None.

(** A persisted model instance as a query yields it. *)
Record Row : Type := { row_id : Z; row_repr : string }.

#[global] Instance Row_eq : EqDecision Row.
Proof. solve_decision. Defined.

(** The argument of the listing view: a model class, or a queryset over a
    model with the rows it selects. *)
Inductive QuerysetOrModel : Type :=
  | AModel (model : pyclass)
  | AQuerySet (model : pyclass) (rows : list Row).

(** The persisted state the views read: the tags and, per content type, the
    rows of the model's table ([model.objects]). *)
Record Database : Type := {
  db_tags : TagTable;
  db_rows : gmap ContentType (list Row)
}.

Definition objects (db : Database) (model : pyclass) : list Row :=
  default [] (db_rows db !! get_for_model model).

(** Modelled from the spec: [get_queryset_and_model] from [tagging.utils],
    the "target collection/model" as a collection together with its model. *)
Definition get_queryset_and_model (db : Database) (q : QuerysetOrModel)
    : list Row * pyclass :=
  match q with
  | AModel model => (objects db model, model)
  | AQuerySet model rows => (rows, model)
  end.

(** The entities a tag is attached to. *)
Definition items (tbl : TagTable) (tag : string) : gset Entity :=
  default ∅ (tbl !! tag).

(** Modelled from the spec: [TaggedItem.objects.get_by_model], which
    "filters the collection to items bearing that tag". *)
Definition get_by_model (db : Database) (q : QuerysetOrModel) (tag : string)
    : list Row :=
  let '(queryset, model) := get_queryset_and_model db q in
  filter (λ r, (get_for_model model, row_id r) ∈ items (db_tags db) tag) queryset.

(** Modelled from the spec: [Tag.objects.related_for_model], the "tags
    related to the given tag restricted to the same target collection
    (optionally annotated with co-occurrence counts)". *)
Definition related_for_model (db : Database) (tag : string) (q : QuerysetOrModel)
    (counts : bool) : list (string * option nat) :=
  let tagged := get_by_model db q tag in
  let co_occurrences (t : string) : nat :=
    length (filter (λ r, r ∈ tagged) (get_by_model db q t)) in
  (λ t, (t, if counts then Some (co_occurrences t) else None)) <$>
  filter (λ t, t ≠ tag ∧ co_occurrences t ≠ 0%nat) (elements (dom (db_tags db))).

End Models.

Import Models.

(** ** [tagging/fields.py] *)

Module Fields.

(** [tagging.settings] *)
Record Settings : Type := { FORCE_LOWERCASE_TAGS : bool }.

(** The keyword arguments [TagField.__init__] looks at. *)
Record InitKwargs : Type := {
  kw_max_length : option Z;
  kw_blank : option bool;
  kw_default : option string
}.

(** The field object as [__init__] leaves it. *)
Record NewField : Type := {
  nf_max_length : Z;
  nf_blank : bool;
  nf_default : string;
  nf_senders : list pyclass;
  nf_not_senders : list pyclass
}.

Definition __init__ (kwargs : InitKwargs) : NewField :=
  {| nf_max_length := default 255 (kw_max_length kwargs);
     nf_blank := default true (kw_blank kwargs);
     nf_default := default EmptyString (kw_default kwargs);
     nf_senders := [];
     nf_not_senders := [] |}.

(** The field object once attached to a model class. *)
Record TagField : Type := {
  max_length : Z;
  blank : bool;
  field_default : string;
  name : string;
  attname : string;
  cls : pyclass;
  senders : list pyclass;
  not_senders : list pyclass
}.

(** [contribute_to_class]: the base class sets [name] and, for a character
    field, [attname] to the given name; the method records the declaring
    class.  Its three [connect] calls register [_save] with [post_save] for
    every sender, and [_update] with [post_init] and [__delete__] with
    [pre_delete] for the declaring class. *)
Definition contribute_to_class (self : NewField) (cls : pyclass) (name : string)
    : TagField :=
  {| max_length := nf_max_length self;
     blank := nf_blank self;
     field_default := nf_default self;
     name := name;
     attname := name;
     cls := cls;
     senders := nf_senders self;
     not_senders := nf_not_senders self |}.

Definition with_senders (self : TagField) (l : list pyclass) : TagField :=
  {| max_length := max_length self; blank := blank self;
     field_default := field_default self; name := name self;
     attname := attname self; cls := cls self;
     senders := l; not_senders := not_senders self |}.

Definition with_not_senders (self : TagField) (l : list pyclass) : TagField :=
  {| max_length := max_length self; blank := blank self;
     field_default := field_default self; name := name self;
     attname := attname self; cls := cls self;
     senders := senders self; not_senders := l |}.

(** What the handlers read and write: the live instances and the persisted
    tags. *)
Record World : Type := { heap : Heap; tag_table : TagTable }.

(** The keyword arguments a signal passes to its receivers. *)
Record SignalKwargs : Type := { sender : pyclass; instance : oid }.

(** ['_%s_cache' % self.attname] *)
Definition cache_name (self : TagField) : string :=
  "_" +:+ attname self +:+ "_cache".

Definition _get_instance_tag_cache (self : TagField) (instance : oid) (h : Heap)
    : option string :=
  getattr_or_None h instance (cache_name self).

Definition _set_instance_tag_cache (self : TagField) (instance : oid)
    (tags : option string) (h : Heap) : Heap :=
  setattr instance (cache_name self) tags h.

Definition _update_instance_tag_cache (self : TagField) (instance : oid)
    (w : World) : World :=
  match pk (heap w instance) with
  | Some _ =>
      let tags :=
        edit_string_for_tags (get_for_object (tag_table w) (heap w instance)) in
      {| heap := _set_instance_tag_cache self instance (Some tags) (heap w);
         tag_table := tag_table w |}
  | None => w
  end.

Definition __get__ (self : TagField) (instance : option oid) (owner : pyclass)
    (w : World) : option string :=
  match instance with
  | None => Some (edit_string_for_tags (usage_for_model (tag_table w) owner))
  | Some i => _get_instance_tag_cache self i (heap w)
  end.

Section set.

(** [value.lower()]: the method belongs to the string type of the value, a
    byte string or a unicode string, and lower-cases every cased character
    that type knows.  The field only calls it. *)
Variable lower : string → string.

Definition __set__ (settings : Settings) (self : TagField)
    (instance : option oid) (value : option string) (h : Heap)
    : Result unit * Heap :=
  match instance with
  | None => (inl (AttributeError (name self +:+ " can only be set on instances.")), h)
  | Some i =>
      let value :=
        match value with
        | Some v => if FORCE_LOWERCASE_TAGS settings then Some (lower v) else Some v
        | None => None
        end in
      (inr (), _set_instance_tag_cache self i value h)
  end.

End set.

(** [_is_sender].  Both branches of the loop body return, so the loop never
    reaches a second base: the first base decides, and the code after the
    loop runs only when [__bases__] is empty. *)
Fixpoint _is_sender (self : TagField) (sender : pyclass) (orig : option pyclass)
    : bool * TagField :=
  if bool_decide (sender = cls self) || bool_decide (sender ∈ senders self)
  then (true, self)
  else if bool_decide (sender ∈ not_senders self)
  then (false, self)
  else
    let orig := match orig with None => sender | Some o => o end in
    match sender with
    | PyClass _ _ (base :: _) =>
        if bool_decide (base = cls self)
        then (true, with_senders self (senders self ++ [sender]))
        else _is_sender self base (Some orig)
    | PyClass _ _ [] =>
        (false, with_not_senders self (not_senders self ++ [orig]))
    end.

Definition _get_ctype (self : TagField) : ContentType :=
  {| ct_app_label := app_label (cls self); ct_model := module_name (cls self) |}.

Definition _save (self : TagField) (kwargs : SignalKwargs) (w : World)
    : TagField * World :=
  let '(is_sender, self) := _is_sender self (sender kwargs) None in
  if is_sender
  then (self,
        {| heap := heap w;
           tag_table :=
             update_tags (tag_table w) (heap w (instance kwargs))
               (_get_instance_tag_cache self (instance kwargs) (heap w))
               (_get_ctype self) |})
  else (self, w).

Definition _update (self : TagField) (kwargs : SignalKwargs) (w : World) : World :=
  let instance := instance kwargs in
  _update_instance_tag_cache self instance w.

Definition __delete__ (self : TagField) (kwargs : SignalKwargs) (w : World) : World :=
  {| heap := heap w;
     tag_table :=
       update_tags (tag_table w) (heap w (instance kwargs)) (Some EmptyString)
         (_get_ctype self) |}.

Definition get_internal_type (self : TagField) : string := "CharField".

(** The senders [_is_sender] accepts when its memo is empty: the declaring
    class and the classes that reach it by following the first base only. *)
Fixpoint first_base_chain (cls c : pyclass) : bool :=
  bool_decide (c = cls) ||
  match c with
  | PyClass _ _ (base :: _) => first_base_chain cls base
  | PyClass _ _ [] => false
  end.

(** The memo only ever holds answers [_is_sender] would compute afresh. *)
Definition memo_agrees (self : TagField) : Prop :=
  (∀ c, c ∈ senders self → first_base_chain (cls self) c = true) ∧
  (∀ c, c ∈ not_senders self → first_base_chain (cls self) c = false).

(** The instance's associations under the content type the field stores
    them with. *)
Definition stored_tags (self : TagField) (w : World) (obj : oid) : gset string :=
  match pk (heap w obj) with
  | Some k => tags_of (tag_table w) (_get_ctype self, k)
  | None => ∅
  end.

(** A class whose ancestry never names more than one base. *)
Fixpoint single_inheritance (c : pyclass) : bool :=
  match c with
  | PyClass _ _ [] => true
  | PyClass _ _ [base] => single_inheritance base
  | PyClass _ _ (_ :: _ :: _) => false
  end.

(** The field after [post_save] was received from each of the senders in
    turn: what successive calls of [_is_sender] leave in the memo. *)
Definition after_queries (self : TagField) (queries : list pyclass) : TagField :=
  foldl (λ f s, (_is_sender f s None).2) self queries.

Section formfield.

(** The values of form keyword arguments, the form field class
    [tagging.forms.TagField] among them, and [CharField.formfield]. *)
Context {V F : Type}.
Variable forms_TagField : V.
Variable super_formfield : TagField → gmap string V → F.

Definition formfield (self : TagField) (kwargs : gmap string V) : F :=
  let defaults : gmap string V := {[ "form_class" := forms_TagField ]} in
  (* defaults.update(kwargs) *)
  let defaults := kwargs ∪ defaults in
  super_formfield self defaults.

End formfield.

End Fields.

(** ** [tagging/views.py] *)

Module Views.

(** The request is passed through to the template layer untouched. *)
Definition Request : Type := string.

(** One element of [tag_info]. *)
Record TagInfo : Type := {
  info_tag : string;
  info_count : nat;
  info_items : list Row
}.

(** Values put in a template context. *)
Inductive CtxValue : Type :=
  | CtxTag (tag : string)
  | CtxRelatedTags (related : list (string * option nat))
  | CtxTagInfo (tag_info : list TagInfo)
  | CtxOther (v : string).

Abbreviation Context := (gmap string CtxValue).

(** The [**kwargs] dictionary of the listing view: the entries the view
    looks up by name, and the remaining options passed on untouched. *)
Record Kwargs : Type := {
  kw_queryset_or_model : option QuerysetOrModel;
  kw_tag : option string;
  kw_extra_context : option Context;
  kw_rest : gmap string string
}.

(** What a view hands to the template layer. *)
Record Response : Type := {
  template_name : option string;
  context : Context;
  context_request : Request
}.

(** Calls the views make to the tag storage and to the generic view, in the
    order they happen. *)
Inductive Event : Type :=
  | GetTag (tag : string)
  | GetByModel (q : QuerysetOrModel) (tag_instance : string)
  | RelatedForModel (tag_instance : string) (q : QuerysetOrModel) (counts : bool)
  | ObjectList (request : Request) (queryset : list Row) (kwargs : Kwargs).

(** A computation that records its calls and may raise. *)
Definition Eff (A : Type) : Type := list Event * Result A.

#[global] Instance Eff_ret : MRet Eff := λ A x, ([], inr x).

#[global] Instance Eff_bind : MBind Eff := λ A B f m,
  match m with
  | (t, inl e) => (t, inl e)
  | (t, inr a) => let '(t', r) := f a in (t ++ t', r)
  end.

Definition raise {A} (e : exn) : Eff A := ([], inl e).

Definition call {A} (ev : Event) (r : Result A) : Eff A := ([ev], r).

Definition dquote : string := String (ascii_of_nat 34) EmptyString.

(** [kwargs.pop('queryset_or_model')] and [kwargs.pop('tag')]; [None] stands
    for [KeyError]. *)
Definition pop_queryset_or_model (kwargs : Kwargs)
    : option (QuerysetOrModel * Kwargs) :=
  match kw_queryset_or_model kwargs with
  | Some q => Some (q, {| kw_queryset_or_model := None; kw_tag := kw_tag kwargs;
                          kw_extra_context := kw_extra_context kwargs;
                          kw_rest := kw_rest kwargs |})
  | None => None
  end.

Definition pop_tag (kwargs : Kwargs) : option (string * Kwargs) :=
  match kw_tag kwargs with
  | Some t => Some (t, {| kw_queryset_or_model := kw_queryset_or_model kwargs;
                          kw_tag := None;
                          kw_extra_context := kw_extra_context kwargs;
                          kw_rest := kw_rest kwargs |})
  | None => None
  end.

Definition set_extra_context (kwargs : Kwargs) (c : Context) : Kwargs :=
  {| kw_queryset_or_model := kw_queryset_or_model kwargs; kw_tag := kw_tag kwargs;
     kw_extra_context := Some c; kw_rest := kw_rest kwargs |}.

(** The value a parameter ends up with: the one passed for it, or else the
    one found in [**kwargs]. *)
Definition supplied {A} (parameter from_kwargs : option A) : option A :=
  match parameter with
  | Some x => Some x
  | None => from_kwargs
  end.

Section views.

(** The generic list view of the framework, which renders a page of the
    queryset or raises. *)
Variable object_list : Request → list Row → Kwargs → Result Response.

(** The ordering the database applies for [.order_by(key)]; the key ['?'],
    the default of [tags_for_object], asks for a random one. *)
Variable ordered_by : string → list Row → list Row.

Definition tagged_object_list (db : Database) (request : Request)
    (queryset_or_model : option QuerysetOrModel) (tag : option string)
    (related_tags related_tag_counts : bool) (kwargs : Kwargs) : Eff Response :=
  '(queryset_or_model, kwargs) ←
    match queryset_or_model with
    | None =>
        match pop_queryset_or_model kwargs with
        | Some qk => mret qk
        | None => raise (AttributeError
            "tagged_object_list must be called with a queryset or a model.")
        end
    | Some q => mret (q, kwargs)
    end;
  '(tag, kwargs) ←
    match tag with
    | None =>
        match pop_tag kwargs with
        | Some tk => mret tk
        | None => raise (AttributeError
            "tagged_object_list must be called with a tag.")
        end
    | Some t => mret (t, kwargs)
    end;
  tag_instance ← call (GetTag tag) (inr (get_tag (db_tags db) tag));
  match tag_instance with
  | None =>
      raise (Http404 ("No Tag found matching " +:+ dquote +:+ tag +:+ dquote +:+ "."))
  | Some tag_instance =>
      queryset ← call (GetByModel queryset_or_model tag_instance)
                      (inr (get_by_model db queryset_or_model tag_instance));
      let kwargs :=
        match kw_extra_context kwargs with
        | None => set_extra_context kwargs ∅
        | Some _ => kwargs
        end in
      let kwargs :=
        set_extra_context kwargs
          (<["tag" := CtxTag tag_instance]> (default ∅ (kw_extra_context kwargs))) in
      kwargs ←
        (if related_tags
         then
           related ← call (RelatedForModel tag_instance queryset_or_model
                                           related_tag_counts)
                          (inr (related_for_model db tag_instance queryset_or_model
                                                  related_tag_counts));
           mret (set_extra_context kwargs
                   (<["related_tags" := CtxRelatedTags related]>
                      (default ∅ (kw_extra_context kwargs))))
         else mret kwargs);
      call (ObjectList request queryset kwargs) (object_list request queryset kwargs)
  end.

(** [Tag.objects.filter(items__content_type=ctype).distinct()
      .annotate(Count('items'))]: the join keeps the tags with at least one
    item of the content type, and the count ranges over the joined items. *)
Definition annotate_count_items (tbl : TagTable) (ctype : ContentType)
    : list (string * nat) :=
  (λ kv, (kv.1, size (items_of_type ctype kv.2))) <$>
  filter (λ kv, items_of_type ctype kv.2 ≠ ∅) (map_to_list tbl).

(** [.order_by('-items__count')]: the larger count comes first. *)
Definition count_ge (a b : string * nat) : Prop := (b.2 ≤ a.2)%nat.

#[global] Instance count_ge_dec : RelDecision count_ge.
Proof. intros a b. unfold count_ge. apply _. Defined.

Definition order_by_count_desc (l : list (string * nat)) : list (string * nat) :=
  merge_sort count_ge l.

(** [.values('object_id')] *)
Definition values_object_id (its : gset Entity) : gset Z := set_map snd its.

(** The object ids associated with a tag under a content type. *)
Definition tagged_instances (tbl : TagTable) (ctype : ContentType) (tag : string)
    : gset Z :=
  values_object_id (items_of_type ctype (items tbl tag)).

(** The tag has an association with the object id under the content type;
    a row is tagged when its id has one. *)
Definition associated (tbl : TagTable) (ctype : ContentType) (tag : string)
    (o : Z) : Prop :=
  (ctype, o) ∈ items tbl tag.

#[global] Instance associated_dec tbl ctype tag o :
  Decision (associated tbl ctype tag o).
Proof. unfold associated. apply _. Defined.

Definition row_tagged (tbl : TagTable) (ctype : ContentType) (tag : string)
    (r : Row) : Prop :=
  associated tbl ctype tag (row_id r).

#[global] Instance row_tagged_dec tbl ctype tag r :
  Decision (row_tagged tbl ctype tag r).
Proof. unfold row_tagged. apply _. Defined.

(** [model.objects.filter(id__in=TaggedItem.objects.filter(
      content_type=ctype, tag=tag).values('object_id'))] *)
Definition tagged_rows (db : Database) (model : pyclass) (ctype : ContentType)
    (tag : string) : list Row :=
  filter (λ r, row_id r ∈ values_object_id
                 (items_of_type ctype (items (db_tags db) tag)))
         (objects db model).

(** The list comprehension of [tags_for_object]: one dictionary per
    annotated tag, with the first five rows of the ordered query. *)
Definition tag_info (db : Database) (model : pyclass) (order_by : string)
    : list TagInfo :=
  let ctype := get_for_model model in
  let ti := order_by_count_desc (annotate_count_items (db_tags db) ctype) in
  (λ tag, {| info_tag := tag.1;
             info_count := tag.2;
             info_items :=
               take 5 (ordered_by order_by (tagged_rows db model ctype tag.1)) |})
  <$> ti.

(** [tags_for_object].  An optional argument that the caller leaves out is
    [None] here and takes the default of the signature: ['?'] for
    [order_by], the empty dictionary for [extra_context].  The context is
    [dict({'tag_info': tag_info}, **extra_context)], where the entries of
    [extra_context] win. *)
Definition tags_for_object (db : Database) (request : Request) (model : pyclass)
    (order_by : option string) (template_name : option string)
    (extra_context : option Context) : Response :=
  let order_by := default "?" order_by in
  let extra_context := default ∅ extra_context in
  let tag_info := tag_info db model order_by in
  {| template_name := template_name;
     context := extra_context ∪ {[ "tag_info" := CtxTagInfo tag_info ]};
     context_request := request |}.

End views.

End Views.

(** * A small site used in the examples *)

Module Site.

Import Fields Views.

(** [class Link(models.Model)] declares [tags = TagField()];
    [class Article(Mixin, Link)] and [class Bookmark(Link)] inherit it. *)
Definition Model : pyclass := PyClass "django" "model" [object].
Definition Link : pyclass := PyClass "links" "link" [Model].
Definition Mixin : pyclass := PyClass "links" "mixin" [object].
Definition Article : pyclass := PyClass "links" "article" [Mixin; Link].
Definition Bookmark : pyclass := PyClass "links" "bookmark" [Link].

Definition no_kwargs : InitKwargs :=
  {| kw_max_length := None; kw_blank := None; kw_default := None |}.

Definition tags : TagField := contribute_to_class (__init__ no_kwargs) Link "tags".

(** Object 1 is a saved article, object 2 a saved bookmark, both with the
    cached string [django python]; object 3 is the link with primary key 1,
    just loaded; every other object is an unsaved link without attributes. *)
Definition live : Heap := λ obj,
  if decide (obj = 1%positive)
  then {| inst_class := Article; pk := Some 7;
          attrs := {[ "_tags_cache" := Some "django python" ]} |}
  else if decide (obj = 2%positive)
  then {| inst_class := Bookmark; pk := Some 8;
          attrs := {[ "_tags_cache" := Some "django python" ]} |}
  else if decide (obj = 3%positive)
  then {| inst_class := Link; pk := Some 1; attrs := ∅ |}
  else {| inst_class := Link; pk := None; attrs := ∅ |}.

Definition start : World := {| heap := live; tag_table := ∅ |}.

(** A database with two links, tagged [django] (both) and [python] (the
    first), and the tag [unused]. *)
Definition link_type : ContentType := get_for_model Link.

Definition site_db : Database :=
  {| db_tags := {[ "django" := {[ (link_type, 1); (link_type, 2) ]};
                   "python" := {[ (link_type, 1) ]};
                   "unused" := ∅ ]};
     db_rows := {[ link_type := [ {| row_id := 1; row_repr := "first" |};
                                  {| row_id := 2; row_repr := "second" |} ] ]} |}.

Definition no_view_kwargs : Kwargs :=
  {| kw_queryset_or_model := None; kw_tag := None; kw_extra_context := None;
     kw_rest := ∅ |}.

(** A generic view that renders the context it is given. *)
Definition render_list (request : Request) (queryset : list Row) (kwargs : Kwargs)
    : Result Response :=
  inr {| template_name := None;
         context := default ∅ (kw_extra_context kwargs);
         context_request := request |}.

(** The ordering that keeps the table's order. *)
Definition table_order (key : string) (rows : list Row) : list Row := rows.

(** The same tags after both links were deleted without the pre-delete
    handler being run: the associations are left behind. *)
Definition dangling_db : Database :=
  {| db_tags := db_tags site_db; db_rows := ∅ |}.

(** The database after the bookmark of the site, row 8 of its table, was
    saved with its cached string. *)
Definition bookmark_db : Database :=
  {| db_tags :=
       tag_table (_save tags {| sender := Bookmark; instance := 2%positive |}
                    start).2;
     db_rows := {[ get_for_model Bookmark :=
                     [ {| row_id := 8; row_repr := "bookmark" |} ] ]} |}.

End Site.

(** * Properties of the tag storage model *)

Module ModelsFacts.

Lemma elem_of_tags_of (tbl : TagTable) (e : Entity) (t : string) :
  t ∈ tags_of tbl e ↔ ∃ its, tbl !! t = Some its ∧ e ∈ its.
Proof.
  unfold tags_of. rewrite elem_of_dom. split.
  - intros [its Hits]. apply map_lookup_filter_Some in Hits as [? ?]. eauto.
  - intros (its & Hl & He). exists its. by apply map_lookup_filter_Some.
Qed.

Lemma tags_of_attach (tbl : TagTable) (e : Entity) (t t' : string) :
  t' ∈ tags_of (attach e t tbl) e ↔ t' = t ∨ t' ∈ tags_of tbl e.
Proof.
  rewrite !elem_of_tags_of. unfold attach.
  destruct (decide (t' = t)) as [->|Hne].
  - rewrite lookup_insert_eq. split; [auto|].
    intros _. eexists. split; [done|]. set_solver.
  - rewrite lookup_insert_ne by done. naive_solver.
Qed.

Lemma tags_of_attach_all (tbl : TagTable) (e : Entity) (l : list string) (t : string) :
  t ∈ tags_of (foldr (attach e) tbl l) e ↔ t ∈ l ∨ t ∈ tags_of tbl e.
Proof.
  induction l as [|x l IH]; simpl.
  - set_solver.
  - rewrite tags_of_attach, IH. set_solver.
Qed.

Lemma tags_of_detach (tbl : TagTable) (e : Entity) (keep : list string) (t : string) :
  t ∈ tags_of (detach e keep tbl) e ↔ t ∈ keep ∧ t ∈ tags_of tbl e.
Proof.
  rewrite !elem_of_tags_of. unfold detach. rewrite map_lookup_imap.
  destruct (tbl !! t) as [its|] eqn:Ht; simpl.
  - case_decide; split.
    + intros (? & [= <-] & ?). eauto.
    + intros (_ & its' & [= <-] & ?). eauto.
    + intros (? & [= <-] & ?). set_solver.
    + tauto.
  - naive_solver.
Qed.

(** After an update the entity carries exactly the names parsed from the
    string. *)
Lemma tags_of_update_tags (tbl : TagTable) (obj : Instance) (k : Z)
    (tag_names : option string) (ctype : ContentType) :
  pk obj = Some k →
  tags_of (update_tags tbl obj tag_names ctype) (ctype, k)
  = list_to_set (parse_tag_input tag_names).
Proof.
  intros Hpk. unfold update_tags. rewrite Hpk. apply set_eq. intros t.
  rewrite tags_of_attach_all, tags_of_detach, elem_of_list_to_set. tauto.
Qed.

Lemma parse_tag_input_empty : parse_tag_input (Some EmptyString) = [].
Proof. reflexivity. Qed.

End ModelsFacts.

(** * Properties of the tag field *)

Module FieldsFacts.

Import Fields ModelsFacts.

(** ** The descriptor *)

Lemma getattr_setattr (h : Heap) (obj : oid) (key : string) (v : option string) :
  getattr_or_None (setattr obj key v h) obj key = v.
Proof.
  unfold getattr_or_None, setattr. rewrite fn_lookup_insert. simpl.
  by rewrite lookup_insert_eq.
Qed.

Lemma attrs_setattr (h : Heap) (obj : oid) (key : string) (v : option string) :
  attrs (setattr obj key v h obj) !! key = Some v.
Proof.
  unfold setattr. rewrite fn_lookup_insert. simpl. apply lookup_insert_eq.
Qed.

Lemma pk_setattr (h : Heap) (obj obj' : oid) (key : string) (v : option string) :
  pk (setattr obj key v h obj') = pk (h obj').
Proof.
  unfold setattr. destruct (decide (obj = obj')) as [->|Hne].
  - by rewrite fn_lookup_insert.
  - by rewrite fn_lookup_insert_ne.
Qed.

(** C2: setting the field on an instance to a string and reading it back on
    the same instance, with no save in between, returns that string, and
    what the string's own [lower()] makes of it when [FORCE_LOWERCASE_TAGS]
    is on. *)
Theorem set_then_get (lower : string → string) (settings : Settings) (self : TagField) (instance : oid)
    (owner : pyclass) (value : string) (w : World) :
  let r := __set__ lower settings self (Some instance) (Some value) (heap w) in
  r.1 = inr () ∧
  attrs (r.2 instance) !! cache_name self
  = Some (Some (if FORCE_LOWERCASE_TAGS settings then lower value else value)) ∧
  __get__ self (Some instance) owner {| heap := r.2; tag_table := tag_table w |}
  = Some (if FORCE_LOWERCASE_TAGS settings then lower value else value).
Proof.
  simpl. unfold _get_instance_tag_cache, _set_instance_tag_cache.
  rewrite getattr_setattr, attrs_setattr.
  by destruct (FORCE_LOWERCASE_TAGS settings).
Qed.

(** The read-back on the site, with ASCII text: under [FORCE_LOWERCASE_TAGS]
    the upper-case letters come back in lower case, without it the string
    comes back as it was given. *)
Lemma set_then_get_example :
  let assign (force : bool) :=
    (__set__ ascii_lower {| FORCE_LOWERCASE_TAGS := force |} Site.tags
       (Some 1%positive) (Some "Django REST") Site.live).2 in
  __get__ Site.tags (Some 1%positive) Site.Article
    {| heap := assign true; tag_table := ∅ |} = Some "django rest" ∧
  __get__ Site.tags (Some 1%positive) Site.Article
    {| heap := assign false; tag_table := ∅ |} = Some "Django REST".
Proof.
  split.
  - exact (proj2 (proj2 (set_then_get ascii_lower {| FORCE_LOWERCASE_TAGS := true |}
             Site.tags 1%positive Site.Article "Django REST" Site.start))).
  - exact (proj2 (proj2 (set_then_get ascii_lower {| FORCE_LOWERCASE_TAGS := false |}
             Site.tags 1%positive Site.Article "Django REST" Site.start))).
Defined.

(** C10: with [FORCE_LOWERCASE_TAGS] on, setting the field on an instance to
    [None] raises nothing, stores [None] in the instance's cache attribute,
    and the field then reads [None]. *)
Theorem set_None_lowercase (lower : string → string) (self : TagField)
    (instance : oid) (owner : pyclass) (w : World) :
  let r := __set__ lower {| FORCE_LOWERCASE_TAGS := true |} self (Some instance) None
             (heap w) in
  r.1 = inr () ∧
  attrs (r.2 instance) !! cache_name self = Some None ∧
  __get__ self (Some instance) owner {| heap := r.2; tag_table := tag_table w |}
  = None.
Proof.
  simpl. unfold _get_instance_tag_cache, _set_instance_tag_cache.
  by rewrite getattr_setattr, attrs_setattr.
Qed.

(** C6: a write at class level, where the instance argument is [None],
    raises [AttributeError], and the heap, hence every instance's tag cache,
    is as it was. *)
Theorem set_on_class (lower : string → string) (settings : Settings)
    (self : TagField) (value : option string) (h : Heap) :
  __set__ lower settings self None value h
  = (inl (AttributeError (name self +:+ " can only be set on instances.")), h).
Proof. reflexivity. Qed.

(** ** The post-init handler *)

(** C4: the post-init handler refreshes the cache of an instance that has a
    primary key from its persisted associations.  An instance without primary
    key it leaves as it is, so the field reads what it read before the handler
    ran: [None] when the cache attribute was never set, and otherwise what
    was last assigned, seen through [lower()] when [FORCE_LOWERCASE_TAGS] is
    on. *)
Theorem update_on_construction (lower : string → string) (settings : Settings)
    (self : TagField) (kwargs : SignalKwargs) (owner : pyclass) (w : World) :
  let obj := instance kwargs in
  (∀ k, pk (heap w obj) = Some k →
     tag_table (_update self kwargs w) = tag_table w ∧
     __get__ self (Some obj) owner (_update self kwargs w)
     = Some (edit_string_for_tags (get_for_object (tag_table w) (heap w obj)))) ∧
  (pk (heap w obj) = None →
     _update self kwargs w = w ∧
     (attrs (heap w obj) !! cache_name self = None →
      __get__ self (Some obj) owner (_update self kwargs w) = None) ∧
     ∀ value,
       let r := __set__ lower settings self (Some obj) value (heap w) in
       r.1 = inr () ∧
       __get__ self (Some obj) owner
         (_update self kwargs {| heap := r.2; tag_table := tag_table w |})
       = match value with
         | Some v => Some (if FORCE_LOWERCASE_TAGS settings then lower v else v)
         | None => None
         end).
Proof.
  simpl. unfold _update, _update_instance_tag_cache. split.
  - intros k Hpk. rewrite Hpk. simpl. split; [done|].
    unfold _get_instance_tag_cache, _set_instance_tag_cache.
    by rewrite getattr_setattr.
  - intros Hpk. rewrite Hpk. split; [done|]. split.
    + intros Hmissing. unfold _get_instance_tag_cache, getattr_or_None.
      by rewrite Hmissing.
    + intros value. simpl. split; [done|].
      unfold _set_instance_tag_cache. rewrite pk_setattr, Hpk. simpl.
      unfold _get_instance_tag_cache. rewrite getattr_setattr.
      destruct value; [|done]. by destruct (FORCE_LOWERCASE_TAGS settings).
Qed.

(** ** The pre-delete handler *)

(** C7: after the pre-delete handler ran for an instance, no association of
    that instance remains under the content type of the declaring model; the
    handler is the storage update with the empty string for that content
    type, and leaves the heap alone. *)
Theorem delete_clears_tags (self : TagField) (kwargs : SignalKwargs) (w : World) :
  let w' := __delete__ self kwargs w in
  let obj := instance kwargs in
  heap w' = heap w ∧
  tag_table w'
  = update_tags (tag_table w) (heap w obj) (Some EmptyString)
      {| ct_app_label := app_label (cls self);
         ct_model := module_name (cls self) |} ∧
  stored_tags self w' obj = ∅ ∧
  ∀ t its k, pk (heap w obj) = Some k →
    tag_table w' !! t = Some its → (_get_ctype self, k) ∉ its.
Proof.
  simpl. split; [done|]. split; [done|].
  unfold stored_tags. simpl.
  destruct (pk (heap w (instance kwargs))) as [k|] eqn:Hpk.
  - pose proof (tags_of_update_tags (tag_table w) (heap w (instance kwargs)) k
                  (Some EmptyString) (_get_ctype self) Hpk) as Hclear.
    rewrite parse_tag_input_empty in Hclear. simpl in Hclear.
    split; [done|].
    intros t its k' [= <-] Hits Hin.
    assert (t ∈ tags_of (update_tags (tag_table w) (heap w (instance kwargs))
                           (Some EmptyString) (_get_ctype self))
                        (_get_ctype self, k)) as Ht.
    { apply elem_of_tags_of. eauto. }
    rewrite Hclear in Ht. set_solver.
  - split; [done|]. intros ??? [=].
Qed.

(** ** Sender detection *)

Lemma pyclass_first_base_ind (P : pyclass → Prop) :
  (∀ a m, P (PyClass a m [])) →
  (∀ a m base bs, P base → P (PyClass a m (base :: bs))) →
  ∀ c, P c.
Proof.
  intros Hroot Hstep. fix IH 1. intros [a m [|base bs]].
  - apply Hroot.
  - apply Hstep, IH.
Qed.

(** A first-base chain is one of the base-class paths. *)
Lemma first_base_chain_issubclass (cls c : pyclass) :
  first_base_chain cls c = true → issubclass c cls = true.
Proof.
  induction c as [a m|a m base bs IH] using pyclass_first_base_ind; simpl.
  - by rewrite !orb_false_r.
  - intros [Heq|Hbase]%orb_true_iff.
    + by rewrite Heq.
    + rewrite (IH Hbase). simpl. apply orb_true_r.
Qed.

(** Whatever the memo holds, as long as it agrees with fresh computations,
    [_is_sender] answers whether the sender reaches the declaring class
    through first bases, and keeps the memo in agreement. *)
Lemma _is_sender_first_base (self : TagField) (sender : pyclass)
    (orig : option pyclass) :
  memo_agrees self →
  (∀ o, orig = Some o →
     first_base_chain (cls self) o = first_base_chain (cls self) sender) →
  let r := _is_sender self sender orig in
  r.1 = first_base_chain (cls self) sender ∧
  cls r.2 = cls self ∧
  memo_agrees r.2.
Proof.
  revert self orig. induction sender as [a m|a m base bs IH] using pyclass_first_base_ind;
    intros self orig [Hs Hn] Horig; simpl.
  - destruct (decide (PyClass a m [] = cls self)) as [Heq|Hne].
    { rewrite (bool_decide_eq_true_2 _ Heq). simpl. done. }
    rewrite (bool_decide_eq_false_2 _ Hne). simpl.
    case_bool_decide as Hin; simpl.
    { split; [|done]. specialize (Hs _ Hin). simpl in Hs.
      by rewrite (bool_decide_eq_false_2 _ Hne) in Hs. }
    case_bool_decide as Hnin; simpl; [done|].
    split; [done|]. split; [done|]. split; [done|]. simpl.
    intros c [Hc|Hc]%elem_of_app; [by apply Hn|].
    apply list_elem_of_singleton in Hc as ->.
    destruct orig as [o|]; simpl.
    + rewrite (Horig o eq_refl). simpl. by rewrite (bool_decide_eq_false_2 _ Hne).
    + by rewrite (bool_decide_eq_false_2 _ Hne).
  - destruct (decide (PyClass a m (base :: bs) = cls self)) as [Heq|Hne].
    { rewrite (bool_decide_eq_true_2 _ Heq). simpl. done. }
    rewrite (bool_decide_eq_false_2 _ Hne). simpl.
    case_bool_decide as Hin; simpl.
    { split; [|done]. specialize (Hs _ Hin). simpl in Hs.
      by rewrite (bool_decide_eq_false_2 _ Hne) in Hs. }
    case_bool_decide as Hnin; simpl.
    { split; [|done]. specialize (Hn _ Hnin). simpl in Hn.
      by rewrite (bool_decide_eq_false_2 _ Hne) in Hn. }
    case_bool_decide as Hbase; simpl.
    + subst base. split.
      { destruct (cls self); simpl. by rewrite bool_decide_eq_true_2. }
      split; [done|]. split; [|done]. simpl.
      intros c [Hc|Hc]%elem_of_app; [by apply Hs|].
      apply list_elem_of_singleton in Hc as ->. simpl.
      rewrite (bool_decide_eq_false_2 _ Hne). simpl.
      destruct (cls self); simpl. by rewrite bool_decide_eq_true_2.
    + apply IH; [done|].
      intros o [= <-]. destruct orig as [o|]; simpl.
      * rewrite (Horig o eq_refl). simpl.
        by rewrite (bool_decide_eq_false_2 _ Hne).
      * by rewrite (bool_decide_eq_false_2 _ Hne).
Qed.

Lemma _is_sender_attname (self : TagField) (sender : pyclass) (orig : option pyclass) :
  attname (_is_sender self sender orig).2 = attname self.
Proof.
  revert orig.
  induction sender as [a m|a m base bs IH] using pyclass_first_base_ind;
    intros orig; simpl; repeat case_match; simpl; auto.
Qed.

(** ** The post-save handler *)

(** A sender the detection accepts has the instance's tags replaced by the
    names parsed from its cached string, under the declaring model's content
    type; a sender it rejects leaves everything as it was. *)
Lemma _save_first_base (self : TagField) (kwargs : SignalKwargs) (w : World)
    (owner : pyclass) (k : Z) :
  memo_agrees self →
  first_base_chain (cls self) (sender kwargs) = true →
  pk (heap w (instance kwargs)) = Some k →
  let saved := _save self kwargs w in
  heap saved.2 = heap w ∧
  stored_tags saved.1 saved.2 (instance kwargs)
  = list_to_set (parse_tag_input (__get__ self (Some (instance kwargs)) owner w)).
Proof.
  intros Hmemo Hchain Hpk. unfold _save.
  pose proof (_is_sender_first_base self (sender kwargs) None Hmemo) as Hs.
  pose proof (_is_sender_attname self (sender kwargs) None) as Ha.
  destruct (_is_sender self (sender kwargs) None) as [b self'].
  simpl in *. destruct Hs as (-> & Hcls & _); [by intros ? [=]|].
  rewrite Hchain. simpl. split; [done|].
  unfold stored_tags. simpl. rewrite Hpk.
  rewrite (tags_of_update_tags _ _ k) by done.
  unfold _get_instance_tag_cache, cache_name. by rewrite Ha.
Qed.

Lemma _save_other_sender (self : TagField) (kwargs : SignalKwargs) (w : World) :
  memo_agrees self →
  first_base_chain (cls self) (sender kwargs) = false →
  (_save self kwargs w).2 = w.
Proof.
  intros Hmemo Hchain. unfold _save.
  pose proof (_is_sender_first_base self (sender kwargs) None Hmemo) as Hs.
  destruct (_is_sender self (sender kwargs) None) as [b self'].
  simpl in *. destruct Hs as (-> & _); [by intros ? [=]|].
  by rewrite Hchain.
Qed.

Section site.

Import Site.

(** C3: [Article] descends from [Link], the class that declares the field,
    through its second base, yet [_is_sender] answers [False] for it, records
    it among the non-senders and keeps answering [False]; [Bookmark], whose
    first base is [Link], is accepted. *)
Theorem _is_sender_second_base :
  issubclass Article Link = true ∧
  _is_sender tags Article None = (false, with_not_senders tags [Article]) ∧
  _is_sender (with_not_senders tags [Article]) Article None
  = (false, with_not_senders tags [Article]) ∧
  _is_sender tags Bookmark None = (true, with_senders tags [Bookmark]).
Proof. repeat split; vm_compute; reflexivity. Qed.

(** C1: saving an article, an instance of a model that inherits the field
    from [Link] through its second base and whose cached string names two
    tags, stores no association at all; saving a bookmark with the same
    cached string stores both. *)
Theorem _save_second_base :
  let article := {| sender := Article; instance := 1%positive |} in
  let bookmark := {| sender := Bookmark; instance := 2%positive |} in
  issubclass Article Link = true ∧
  __get__ tags (Some 1%positive) Article start = Some "django python" ∧
  parse_tag_input (Some "django python") = ["django"; "python"] ∧
  (_save tags article start).2 = start ∧
  stored_tags tags (_save tags article start).2 1%positive = ∅ ∧
  stored_tags tags (_save tags bookmark start).2 2%positive
  = {[ "django"; "python" ]}.
Proof. repeat split; vm_compute; reflexivity. Qed.

(** The post-init handler at work on the site: the link loaded with primary
    key 1, and an unsaved link before and after its field was assigned the
    default of a field declared without [default]. *)
Lemma update_on_construction_example :
  let loaded := {| sender := Link; instance := 3%positive |} in
  let created := {| sender := Link; instance := 4%positive |} in
  let stored := {| heap := live; tag_table := db_tags site_db |} in
  let settings := {| FORCE_LOWERCASE_TAGS := true |} in
  (pk (live 3%positive) = Some 1 ∧
   __get__ tags (Some 3%positive) Link (_update tags loaded stored)
   = Some "django python") ∧
  (pk (live 4%positive) = None ∧
   attrs (live 4%positive) !! cache_name tags = None ∧
   _update tags created stored = stored ∧
   __get__ tags (Some 4%positive) Link (_update tags created stored) = None ∧
   field_default tags = EmptyString ∧
   __get__ tags (Some 4%positive) Link
     (_update tags created
        {| heap := (__set__ ascii_lower settings tags (Some 4%positive)
                      (Some (field_default tags)) live).2;
           tag_table := db_tags site_db |})
   = Some EmptyString).
Proof.
  pose proof (update_on_construction ascii_lower {| FORCE_LOWERCASE_TAGS := true |}
                tags {| sender := Link; instance := 3%positive |} Link
                {| heap := live; tag_table := db_tags site_db |})
    as (Hloaded & _).
  pose proof (update_on_construction ascii_lower {| FORCE_LOWERCASE_TAGS := true |}
                tags {| sender := Link; instance := 4%positive |} Link
                {| heap := live; tag_table := db_tags site_db |})
    as (_ & Hcreated).
  simpl in *. destruct (Hcreated eq_refl) as (Hsame & Hnone & Hassigned).
  split; [split|split; [|split; [|split; [|split; [|split]]]]].
  - reflexivity.
  - destruct (Hloaded 1 eq_refl) as [_ ->]. vm_compute. reflexivity.
  - reflexivity.
  - reflexivity.
  - exact Hsame.
  - by apply Hnone.
  - reflexivity.
  - exact (proj2 (Hassigned (Some EmptyString))).
Defined.

(** The field of an unsaved instance does not always read as the empty
    string: an instance whose cache was never set reads [None], a field
    declared with [default='misc'] reads that default, and an instance
    constructed with [tags='Draft'] under [FORCE_LOWERCASE_TAGS] reads
    [draft]. *)
Lemma update_on_construction_not_empty :
  let created := {| sender := Link; instance := 4%positive |} in
  let settings := {| FORCE_LOWERCASE_TAGS := true |} in
  let topics :=
    contribute_to_class
      (__init__ {| kw_max_length := None; kw_blank := None;
                   kw_default := Some "misc" |}) Link "topics" in
  let constructed (field : TagField) (value : string) :=
    _update field created
      {| heap := (__set__ ascii_lower settings field (Some 4%positive)
                    (Some value) live).2;
         tag_table := ∅ |} in
  pk (live 4%positive) = None ∧
  __get__ tags (Some 4%positive) Link (_update tags created start) = None ∧
  __get__ tags (Some 4%positive) Link (_update tags created start)
  ≠ Some EmptyString ∧
  __get__ topics (Some 4%positive) Link
    (constructed topics (field_default topics)) = Some "misc" ∧
  __get__ tags (Some 4%positive) Link (constructed tags "Draft") = Some "draft".
Proof. repeat split; try discriminate; vm_compute; reflexivity. Qed.

(** Deleting the saved bookmark after its tags were stored. *)
Example delete_bookmark :
  let bookmark := {| sender := Bookmark; instance := 2%positive |} in
  let saved := (_save tags bookmark start).2 in
  stored_tags tags saved 2%positive = {[ "django"; "python" ]} ∧
  stored_tags tags (__delete__ tags bookmark saved) 2%positive = ∅ ∧
  dom (tag_table (__delete__ tags bookmark saved)) = {[ "django"; "python" ]}.
Proof. repeat split; vm_compute; reflexivity. Qed.

End site.

End FieldsFacts.

(** * Properties of the views *)

Module ViewsFacts.

Import Views.

(** ** [tagged_object_list] *)

Ltac eff_simpl :=
  repeat (unfold mbind, Eff_bind, mret, Eff_ret, raise, call; simpl).

Section listing.

Variable object_list : Request → list Row → Kwargs → Result Response.

(** C8: a call without queryset or model, or without tag, neither as a
    parameter nor in the keyword arguments, raises [AttributeError] before
    any call to the tag storage or to the generic view. *)
Theorem missing_argument (db : Database) (request : Request)
    (queryset_or_model : option QuerysetOrModel) (tag : option string)
    (related_tags related_tag_counts : bool) (kwargs : Kwargs) :
  supplied queryset_or_model (kw_queryset_or_model kwargs) = None ∨
  supplied tag (kw_tag kwargs) = None →
  ∃ msg,
    tagged_object_list object_list db request queryset_or_model tag
      related_tags related_tag_counts kwargs
    = ([], inl (AttributeError msg)).
Proof.
  intros Hmissing. unfold tagged_object_list, pop_queryset_or_model, pop_tag.
  destruct queryset_or_model as [q|], (kw_queryset_or_model kwargs) as [q'|],
    tag as [t|], (kw_tag kwargs) as [t'|] eqn:Hkw;
    simpl in Hmissing; destruct Hmissing as [Hm|Hm]; try discriminate Hm;
    eff_simpl; rewrite ?Hkw; eff_simpl; eauto.
Qed.

(** C5: in a call that comes with its queryset or model, a tag name that
    resolves to no tag raises [Http404] right after the resolution, with no
    listing; a tag name that resolves carries the call on to the listing,
    whose outcome is the outcome of the call. *)
Theorem unknown_tag (db : Database) (request : Request)
    (queryset_or_model : option QuerysetOrModel) (tag : option string)
    (related_tags related_tag_counts : bool) (kwargs : Kwargs)
    (q : QuerysetOrModel) (name : string) :
  supplied queryset_or_model (kw_queryset_or_model kwargs) = Some q →
  supplied tag (kw_tag kwargs) = Some name →
  let outcome :=
    tagged_object_list object_list db request queryset_or_model tag
      related_tags related_tag_counts kwargs in
  (get_tag (db_tags db) name = None →
     outcome = ([GetTag name],
                inl (Http404 ("No Tag found matching " +:+ dquote +:+ name
                              +:+ dquote +:+ ".")))) ∧
  (∀ tag_instance, get_tag (db_tags db) name = Some tag_instance →
     ∃ related kwargs',
       (related = [] ∨
        related = [RelatedForModel tag_instance q related_tag_counts]) ∧
       outcome
       = (GetTag name :: GetByModel q tag_instance :: related ++
            [ObjectList request (get_by_model db q tag_instance) kwargs'],
          object_list request (get_by_model db q tag_instance) kwargs')).
Proof.
  intros Hq Htag. unfold tagged_object_list, pop_queryset_or_model, pop_tag.
  destruct queryset_or_model as [q0|], (kw_queryset_or_model kwargs) as [q'|],
    tag as [t|], (kw_tag kwargs) as [t'|] eqn:Hkw;
    simpl in Hq, Htag; try discriminate Hq; try discriminate Htag;
    injection Hq as ->; injection Htag as ->;
    eff_simpl; rewrite ?Hkw; eff_simpl;
    (split;
     [ intros ->; reflexivity
     | intros tag_instance ->; destruct related_tags; eff_simpl;
       [ eexists [_], _ | eexists [], _ ]; (split; [eauto|reflexivity]) ]).
Qed.

End listing.

(** ** [tags_for_object] *)

Lemma elem_of_items_of_type (ctype : ContentType) (its : gset Entity) (e : Entity) :
  e ∈ items_of_type ctype its ↔ e.1 = ctype ∧ e ∈ its.
Proof. unfold items_of_type. set_solver. Qed.

(** Within one content type an item is determined by its object id, so
    counting items counts instances. *)
Lemma size_values_object_id (ctype : ContentType) (its : gset Entity) :
  size (values_object_id (items_of_type ctype its)) = size (items_of_type ctype its).
Proof.
  unfold values_object_id, set_map.
  rewrite size_list_to_set.
  - rewrite length_fmap. reflexivity.
  - apply NoDup_fmap_2_strong; [|apply NoDup_elements].
    intros [c1 o1] [c2 o2] H1%elem_of_elements H2%elem_of_elements Ho.
    apply elem_of_items_of_type in H1 as [? _], H2 as [? _].
    simpl in *. congruence.
Qed.

Lemma values_object_id_empty (ctype : ContentType) (its : gset Entity) :
  values_object_id (items_of_type ctype its) = ∅ ↔ items_of_type ctype its = ∅.
Proof.
  rewrite <- !leibniz_equiv_iff, <- !size_empty_iff, size_values_object_id.
  reflexivity.
Qed.

Lemma elem_of_annotate_count_items (tbl : TagTable) (ctype : ContentType)
    (tag : string) (n : nat) :
  (tag, n) ∈ annotate_count_items tbl ctype ↔
  tbl !! tag = Some (items tbl tag) ∧
  tagged_instances tbl ctype tag ≠ ∅ ∧
  n = size (tagged_instances tbl ctype tag).
Proof.
  unfold annotate_count_items, tagged_instances.
  rewrite size_values_object_id, values_object_id_empty, list_elem_of_fmap.
  split.
  - intros ([t its] & [= -> ->] & [Hne Hin]%list_elem_of_filter).
    apply elem_of_map_to_list in Hin. simpl in *.
    unfold items. rewrite Hin. done.
  - intros (Hin & Hne & ->). exists (tag, items tbl tag). split; [done|].
    apply list_elem_of_filter. split; [done|].
    by apply elem_of_map_to_list.
Qed.

Lemma annotate_count_items_tags (tbl : TagTable) (ctype : ContentType) :
  NoDup (annotate_count_items tbl ctype).*1.
Proof.
  unfold annotate_count_items. rewrite <- list_fmap_compose.
  apply (NoDup_fmap_2_strong fst).
  - intros [t1 i1] [t2 i2] [_ H1%elem_of_map_to_list]%list_elem_of_filter
      [_ H2%elem_of_map_to_list]%list_elem_of_filter Heq.
    simpl in Heq. subst t2. congruence.
  - apply NoDup_filter, NoDup_map_to_list.
Qed.

Section summary.

Variable ordered_by : string → list Row → list Row.

(** Whatever ordering is asked for, the database returns the rows it was
    given, in some order. *)
Hypothesis ordered_by_permutes : ∀ key rows, ordered_by key rows ≡ₚ rows.

Lemma elem_of_tag_info (db : Database) (model : pyclass) (order_by : string)
    (e : TagInfo) :
  e ∈ tag_info ordered_by db model order_by ↔
  ∃ tag n,
    (tag, n) ∈ annotate_count_items (db_tags db) (get_for_model model) ∧
    e = {| info_tag := tag;
           info_count := n;
           info_items :=
             take 5 (ordered_by order_by
                       (tagged_rows db model (get_for_model model) tag)) |}.
Proof.
  unfold tag_info, order_by_count_desc. rewrite list_elem_of_fmap. split.
  - intros ([t n] & -> & Hin). rewrite merge_sort_Permutation in Hin. eauto.
  - intros (t & n & Hin & ->). exists (t, n). split; [done|].
    by rewrite merge_sort_Permutation.
Qed.

Lemma elem_of_tagged_instances (tbl : TagTable) (ctype : ContentType)
    (tag : string) (o : Z) :
  o ∈ tagged_instances tbl ctype tag ↔ associated tbl ctype tag o.
Proof.
  unfold tagged_instances, values_object_id, associated.
  rewrite elem_of_map. split.
  - intros ([c o'] & -> & [Hc Hin]%elem_of_items_of_type). simpl in *. by subst c.
  - intros Hin. exists (ctype, o). split; [done|].
    by apply elem_of_items_of_type.
Qed.

Lemma tagged_rows_filter (db : Database) (model : pyclass) (ctype : ContentType)
    (tag : string) :
  tagged_rows db model ctype tag
  = filter (row_tagged (db_tags db) ctype tag) (objects db model).
Proof.
  unfold tagged_rows. apply list_filter_iff. intros r.
  apply (elem_of_tagged_instances (db_tags db) ctype tag (row_id r)).
Qed.

(** When the ids of the table are distinct and every associated id is the id
    of a row, the associated ids are as many as the tagged rows. *)
Lemma size_tagged_instances_rows (db : Database) (model : pyclass)
    (ctype : ContentType) (tag : string) :
  NoDup (row_id <$> objects db model) →
  (∀ o, associated (db_tags db) ctype tag o →
        ∃ r, r ∈ objects db model ∧ row_id r = o) →
  size (tagged_instances (db_tags db) ctype tag)
  = length (filter (row_tagged (db_tags db) ctype tag) (objects db model)).
Proof.
  intros Hids Hrows.
  set (rows := filter (row_tagged (db_tags db) ctype tag) (objects db model)).
  assert (NoDup (row_id <$> rows)) as Hnodup.
  { eapply sublist_NoDup; [exact Hids|].
    apply fmap_sublist, sublist_filter. }
  rewrite <- (length_fmap row_id rows),
          <- (size_list_to_set (C:=gset Z)) by done.
  f_equal. apply set_eq. intros o.
  rewrite elem_of_tagged_instances, elem_of_list_to_set, list_elem_of_fmap.
  split.
  - intros Ho. destruct (Hrows o Ho) as (r & Hr & <-).
    exists r. split; [done|]. by apply list_elem_of_filter.
  - intros (r & -> & [Hr _]%list_elem_of_filter). done.
Qed.

(** C9: [tags_for_object] puts under [tag_info], next to the entries of
    [extra_context], a list with one entry for each tag that has an
    association under the model's own content type.  The entry's count is the
    number of distinct object ids so associated, which is the number of
    tagged rows of the model when the ids of its table are distinct and every
    associated id is the id of a row; its items are the first five, at most,
    of the tagged rows of the model in the ordering asked for, a random one
    when [order_by] is left out. *)
Theorem tags_for_object_summary (db : Database) (request : Request)
    (model : pyclass) (order_by : option string) (template : option string)
    (extra_context : option Context) :
  let ctype := get_for_model model in
  let tbl := db_tags db in
  ∃ info,
    context (tags_for_object ordered_by db request model order_by template
               extra_context)
    = default ∅ extra_context ∪ {[ "tag_info" := CtxTagInfo info ]} ∧
    (∀ tag, (∃ o, associated tbl ctype tag o) ↔
            ∃ e, e ∈ info ∧ info_tag e = tag) ∧
    NoDup (info_tag <$> info) ∧
    ∀ e, e ∈ info →
      (∃ ids : gset Z,
         (∀ o, o ∈ ids ↔ associated tbl ctype (info_tag e) o) ∧
         info_count e = size ids) ∧
      (NoDup (row_id <$> objects db model) →
       (∀ o, associated tbl ctype (info_tag e) o →
             ∃ r, r ∈ objects db model ∧ row_id r = o) →
       info_count e
       = length (filter (row_tagged tbl ctype (info_tag e)) (objects db model))) ∧
      info_items e
      = take 5 (ordered_by (default "?" order_by)
                  (filter (row_tagged tbl ctype (info_tag e)) (objects db model))) ∧
      (length (info_items e) ≤ 5)%nat ∧
      ∀ r, r ∈ info_items e →
        r ∈ objects db model ∧ row_tagged tbl ctype (info_tag e) r.
Proof.
  simpl. eexists. split; [reflexivity|]. split; [|split].
  - intros tag. split.
    + intros [o Ho].
      assert (tagged_instances (db_tags db) (get_for_model model) tag ≠ ∅) as Hne.
      { apply elem_of_tagged_instances in Ho. set_solver. }
      exists {| info_tag := tag;
                info_count := size (tagged_instances (db_tags db)
                                      (get_for_model model) tag);
                info_items := take 5 (ordered_by (default "?" order_by)
                  (tagged_rows db model (get_for_model model) tag)) |}.
      split; [|reflexivity].
      apply elem_of_tag_info. eexists tag, _. split; [|reflexivity].
      apply elem_of_annotate_count_items.
      split; [|done].
      unfold items. destruct (db_tags db !! tag) as [its|] eqn:Hl; [done|].
      exfalso. apply Hne. apply values_object_id_empty.
      unfold items. rewrite Hl. simpl. set_solver.
    + intros (e & (t & n & Hin & ->)%elem_of_tag_info & <-). simpl.
      apply elem_of_annotate_count_items in Hin as (_ & Hne & _).
      apply set_choose_L in Hne as [o Ho]. exists o.
      by apply elem_of_tagged_instances.
  - unfold tag_info, order_by_count_desc. rewrite <- list_fmap_compose.
    change (NoDup (merge_sort count_ge
              (annotate_count_items (db_tags db) (get_for_model model))).*1).
    rewrite merge_sort_Permutation. apply annotate_count_items_tags.
  - intros e (t & n & Hin & ->)%elem_of_tag_info. simpl.
    apply elem_of_annotate_count_items in Hin as (_ & _ & ->).
    rewrite tagged_rows_filter.
    split; [|split; [|split; [|split]]].
    + exists (tagged_instances (db_tags db) (get_for_model model) t).
      split; [|done]. intros o. apply elem_of_tagged_instances.
    + apply size_tagged_instances_rows.
    + done.
    + rewrite length_take. lia.
    + intros r Hr.
      apply elem_of_sublist with (l2 := ordered_by (default "?" order_by)
        (filter (row_tagged (db_tags db) (get_for_model model) t)
                (objects db model))) in Hr; [|apply sublist_take].
      rewrite ordered_by_permutes in Hr.
      apply list_elem_of_filter in Hr as [? ?]. done.
Qed.

(** The context handed to the template holds that list under [tag_info],
    unless [extra_context] has an entry of that name. *)
Lemma tags_for_object_context (db : Database) (request : Request)
    (model : pyclass) (order_by : option string) (template : option string)
    (extra_context : option Context) :
  default ∅ extra_context !! "tag_info" = None →
  context (tags_for_object ordered_by db request model order_by template
             extra_context) !! "tag_info"
  = Some (CtxTagInfo (tag_info ordered_by db model (default "?" order_by))).
Proof.
  intros Hfree. simpl. rewrite lookup_union_r by done.
  apply lookup_singleton_eq.
Qed.

End summary.

(** ** The views on the example site *)

Section site.

Import Site.

Lemma missing_argument_witness :
  supplied None (kw_queryset_or_model no_view_kwargs) = None ∧
  ∃ msg,
    tagged_object_list render_list site_db "/links/tag/django/" None
      (Some "django") false true no_view_kwargs
    = ([], inl (AttributeError msg)).
Proof.
  split; [reflexivity|].
  apply missing_argument. left. reflexivity.
Defined.

Lemma unknown_tag_witness :
  get_tag (db_tags site_db) "ghost" = None ∧
  tagged_object_list render_list site_db "/links/tag/ghost/"
    (Some (AModel Link)) (Some "ghost") false true no_view_kwargs
  = ([GetTag "ghost"],
     inl (Http404 ("No Tag found matching " +:+ dquote +:+ "ghost"
                   +:+ dquote +:+ "."))).
Proof.
  split; [reflexivity|].
  apply (unknown_tag render_list site_db "/links/tag/ghost/"
           (Some (AModel Link)) (Some "ghost") false true no_view_kwargs
           (AModel Link) "ghost" eq_refl eq_refl).
  reflexivity.
Defined.

Example tagged_object_list_python :
  tagged_object_list render_list site_db "/links/tag/python/"
    (Some (AModel Link)) (Some "python") false true no_view_kwargs
  = ([GetTag "python"; GetByModel (AModel Link) "python";
      ObjectList "/links/tag/python/" [ {| row_id := 1; row_repr := "first" |} ]
        (set_extra_context no_view_kwargs {[ "tag" := CtxTag "python" ]})],
     inr {| template_name := None;
            context := {[ "tag" := CtxTag "python" ]};
            context_request := "/links/tag/python/" |}).
Proof. vm_compute. reflexivity. Qed.

Example tag_info_links :
  tag_info table_order site_db Link "?"
  = [ {| info_tag := "django"; info_count := 2;
         info_items := [ {| row_id := 1; row_repr := "first" |};
                         {| row_id := 2; row_repr := "second" |} ] |};
      {| info_tag := "python"; info_count := 1;
         info_items := [ {| row_id := 1; row_repr := "first" |} ] |} ].
Proof. vm_compute. reflexivity. Qed.

Lemma tags_for_object_summary_witness :
  (∀ key rows, table_order key rows ≡ₚ rows) ∧
  ∃ info,
    context (tags_for_object table_order site_db "/links/tags/" Link None
               (Some "tags.html") None) !! "tag_info"
    = Some (CtxTagInfo info) ∧
    ∀ e, e ∈ info →
      (length (info_items e) ≤ 5)%nat ∧
      ∃ ids : gset Z,
        (∀ o, o ∈ ids ↔
              associated (db_tags site_db) (get_for_model Link) (info_tag e) o) ∧
        info_count e = size ids.
Proof.
  assert (∀ key rows, table_order key rows ≡ₚ rows) as Hperm by reflexivity.
  split; [exact Hperm|].
  destruct (tags_for_object_summary table_order Hperm site_db "/links/tags/"
              Link None (Some "tags.html") None)
    as (info & Hcontext & _ & _ & Hentries).
  exists info. split.
  - rewrite Hcontext. reflexivity.
  - intros e He. destruct (Hentries e He) as (Hcount & _ & _ & Hlen & _). auto.
Defined.

(** The count is not always the number of tagged instances, and a tag held
    by an instance of the model is not always listed.  Where the two links
    were deleted behind the handler's back, [django] is listed for [Link]
    with count 2 though [Link] has no instance left.  A bookmark saved
    through the field has its tags filed under the content type of [Link],
    the declaring model, and the summary for [Bookmark] is empty. *)
Lemma tags_for_object_not_instances :
  (objects dangling_db Link = [] ∧
   context (tags_for_object table_order dangling_db "/links/tags/" Link None
              None None) !! "tag_info"
   = Some (CtxTagInfo
             [ {| info_tag := "django"; info_count := 2; info_items := [] |};
               {| info_tag := "python"; info_count := 1; info_items := [] |} ])) ∧
  (objects bookmark_db Bookmark = [ {| row_id := 8; row_repr := "bookmark" |} ] ∧
   Fields.stored_tags tags
     {| Fields.heap := live; Fields.tag_table := db_tags bookmark_db |}
     2%positive = {[ "django"; "python" ]} ∧
   context (tags_for_object table_order bookmark_db "/links/tags/" Bookmark None
              None None) !! "tag_info"
   = Some (CtxTagInfo [])).
Proof. repeat split; vm_compute; reflexivity. Qed.

End site.

End ViewsFacts.

(** * Further properties of the tag field *)

Module FieldsMore.

Import Fields ModelsFacts FieldsFacts.

(** ** What a call of [_is_sender] does to the memo *)

(** A call leaves the field as it is, or appends one class to [senders] on a
    [True] answer, or appends the original sender to [not_senders] on a
    [False] answer. *)
Lemma _is_sender_shape (self : TagField) (sender : pyclass) (orig : option pyclass) :
  let r := _is_sender self sender orig in
  r.2 = self ∨
  (r.1 = true ∧
   ∃ c, head (__bases__ c) = Some (cls self) ∧
        r.2 = with_senders self (senders self ++ [c])) ∨
  (r.1 = false ∧
   r.2 = with_not_senders self (not_senders self ++ [default sender orig])).
Proof.
  revert orig.
  induction sender as [a m|a m base bs IH] using pyclass_first_base_ind;
    intros orig; simpl.
  - repeat case_match; simpl; auto.
  - destruct (bool_decide _ || bool_decide _); simpl; [auto|].
    destruct (bool_decide (_ ∈ not_senders self)); simpl; [auto|].
    case_bool_decide as Hbase; simpl.
    + right; left. split; [done|]. eexists. split; [|reflexivity].
      simpl. by rewrite Hbase.
    + specialize (IH (Some (default (PyClass a m (base :: bs)) orig))).
      simpl in IH. by destruct orig.
Qed.

(** X1: a call of [_is_sender] changes nothing of the field but its memo,
    and the memo only grows, by one entry at most: on a [True] answer a
    class whose first base is the declaring class may join [senders], on a
    [False] answer the sender itself may join [not_senders]. *)
Theorem _is_sender_memo_growth (self : TagField) (sender : pyclass) :
  let r := _is_sender self sender None in
  ∃ new_senders new_not_senders,
    r.2 = with_not_senders
            (with_senders self (senders self ++ new_senders))
            (not_senders self ++ new_not_senders) ∧
    (length new_senders + length new_not_senders ≤ 1)%nat ∧
    (∀ c, c ∈ new_senders →
          r.1 = true ∧ head (__bases__ c) = Some (cls self)) ∧
    (∀ c, c ∈ new_not_senders → r.1 = false ∧ c = sender).
Proof.
  simpl. destruct (_is_sender_shape self sender None)
    as [Hsame|[(Htrue & c & Hc & Hnew)|(Hfalse & Hnew)]].
  - exists [], []. rewrite Hsame, !app_nil_r.
    split; [by destruct self|]. split; [simpl; lia|].
    split; by intros ? ?%elem_of_nil.
  - exists [c], []. rewrite Hnew, app_nil_r.
    split; [done|]. split; [simpl; lia|]. split.
    + by intros ? ->%list_elem_of_singleton.
    + by intros ? ?%elem_of_nil.
  - exists [], [sender]. rewrite Hnew, app_nil_r.
    split; [by destruct self|]. split; [simpl; lia|]. split.
    + by intros ? ?%elem_of_nil.
    + by intros ? ->%list_elem_of_singleton.
Qed.

Lemma _is_sender_true_again (self : TagField) (sender : pyclass)
    (orig : option pyclass) :
  (_is_sender self sender orig).1 = true →
  ∀ orig', _is_sender (_is_sender self sender orig).2 sender orig'
           = (true, (_is_sender self sender orig).2).
Proof.
  revert orig.
  induction sender as [a m|a m base bs IH] using pyclass_first_base_ind;
    intros orig Htrue orig'.
  - simpl in *.
    destruct (bool_decide _ || bool_decide _) eqn:Hfirst; simpl in *.
    { by rewrite Hfirst. }
    destruct (bool_decide (_ ∈ not_senders self)); simpl in *; done.
  - pose proof (_is_sender_shape self (PyClass a m (base :: bs)) orig) as Hshape.
    simpl in *.
    destruct (bool_decide _ || bool_decide _) eqn:Hfirst; simpl in *.
    { by rewrite Hfirst. }
    destruct (bool_decide (_ ∈ not_senders self)) eqn:Hsecond; simpl in *; [done|].
    case_bool_decide as Hbase; simpl in *.
    + rewrite (bool_decide_eq_true_2 (_ ∈ _ ++ _)) by set_solver.
      by rewrite orb_true_r.
    + set (o := Some _) in *.
      specialize (IH o Htrue).
      destruct Hshape as [Hsame|[(_ & c & _ & Hnew)|(Hfalse & _)]];
        [| |congruence].
      * rewrite Hsame in *. rewrite Hfirst, Hsecond.
        rewrite (bool_decide_eq_false_2 _ Hbase). apply IH.
      * rewrite Hnew in *. simpl. rewrite Hsecond.
        rewrite (bool_decide_eq_false_2 _ Hbase).
        destruct (bool_decide (PyClass a m (base :: bs) = cls self)
                  || bool_decide (_ ∈ senders self ++ [c])); [done|apply IH].
Qed.

(** X2: asking [_is_sender] again about the same sender gives the same
    answer and leaves the memo as the first call left it. *)
Theorem _is_sender_again (self : TagField) (sender : pyclass) :
  let r := _is_sender self sender None in
  _is_sender r.2 sender None = r.
Proof.
  simpl. destruct (_is_sender self sender None) as [b self'] eqn:Hr.
  destruct b.
  - pose proof (_is_sender_true_again self sender None) as Hagain.
    rewrite Hr in Hagain. by apply Hagain.
  - pose proof (_is_sender_shape self sender None) as Hshape.
    rewrite Hr in Hshape. simpl in Hshape.
    destruct Hshape as [->|[(Htrue & _)|(_ & ->)]]; [done|done|].
    destruct sender as [a m bs]. simpl in *.
    destruct (bool_decide _ || bool_decide _) eqn:Hfirst; simpl in *.
    { by injection Hr. }
    rewrite (bool_decide_eq_true_2 (_ ∈ _ ++ _)) by set_solver. done.
Qed.

(** ** Sender detection over the life of a field *)

Lemma memo_agrees_fresh (init_kwargs : InitKwargs) (c : pyclass) (n : string) :
  memo_agrees (contribute_to_class (__init__ init_kwargs) c n).
Proof. split; intros ? ?%elem_of_nil; done. Qed.

Lemma after_queries_agrees (self : TagField) (queries : list pyclass) :
  memo_agrees self →
  memo_agrees (after_queries self queries) ∧
  cls (after_queries self queries) = cls self.
Proof.
  revert self. induction queries as [|q queries IH]; intros self Hmemo; [done|].
  simpl. destruct (_is_sender_first_base self q None Hmemo) as (_ & Hcls & Hmemo');
    [by intros ? [=]|].
  destruct (IH _ Hmemo') as [? ->]. done.
Qed.

Lemma first_base_chain_single (cls c : pyclass) :
  single_inheritance c = true → first_base_chain cls c = issubclass c cls.
Proof.
  induction c as [a m|a m base bs IH] using pyclass_first_base_ind; simpl.
  - done.
  - destruct bs as [|b' bs]; [|done]. intros Hsingle. simpl.
    by rewrite (IH Hsingle), orb_false_r.
Qed.

(** X3: however many senders a freshly declared field was asked about
    before, [_is_sender] answers whether the sender is the declaring class or
    reaches it by following first bases: the memo never changes an answer. *)
Theorem _is_sender_after_queries (init_kwargs : InitKwargs) (c : pyclass)
    (n : string) (queries : list pyclass) (sender : pyclass) :
  let self := after_queries (contribute_to_class (__init__ init_kwargs) c n)
                queries in
  (_is_sender self sender None).1 = first_base_chain c sender.
Proof.
  simpl.
  destruct (after_queries_agrees _ queries (memo_agrees_fresh init_kwargs c n))
    as [Hmemo Hcls].
  destruct (_is_sender_first_base _ sender None Hmemo) as (-> & _);
    [by intros ? [=]|].
  by rewrite Hcls.
Qed.

(** X4: for a sender whose ancestry uses single inheritance throughout,
    [_is_sender] is exact: it answers [True] just when the sender is the
    declaring class or one of its descendants. *)
Theorem _is_sender_single_inheritance (init_kwargs : InitKwargs) (c : pyclass)
    (n : string) (queries : list pyclass) (sender : pyclass) :
  single_inheritance sender = true →
  let self := after_queries (contribute_to_class (__init__ init_kwargs) c n)
                queries in
  (_is_sender self sender None).1 = issubclass sender c.
Proof.
  intros Hsingle. simpl.
  destruct (after_queries_agrees _ queries (memo_agrees_fresh init_kwargs c n))
    as [Hmemo Hcls].
  destruct (_is_sender_first_base _ sender None Hmemo) as (-> & _);
    [by intros ? [=]|].
  rewrite Hcls. by apply first_base_chain_single.
Qed.

(** X5: [_is_sender] never accepts a class that does not descend from the
    declaring class, whatever it was asked before. *)
Theorem _is_sender_rejects_unrelated (init_kwargs : InitKwargs) (c : pyclass)
    (n : string) (queries : list pyclass) (sender : pyclass) :
  issubclass sender c = false →
  let self := after_queries (contribute_to_class (__init__ init_kwargs) c n)
                queries in
  (_is_sender self sender None).1 = false.
Proof.
  intros Hunrelated. simpl.
  destruct (after_queries_agrees _ queries (memo_agrees_fresh init_kwargs c n))
    as [Hmemo Hcls].
  destruct (_is_sender_first_base _ sender None Hmemo) as (-> & _);
    [by intros ? [=]|].
  rewrite Hcls.
  destruct (first_base_chain c sender) eqn:Hchain; [|done].
  apply first_base_chain_issubclass in Hchain. congruence.
Qed.

(** ** The post-save handler *)

Lemma _save_outcome (self : TagField) (kwargs : SignalKwargs) (w : World) :
  memo_agrees self →
  let saved := _save self kwargs w in
  memo_agrees saved.1 ∧
  cls saved.1 = cls self ∧
  heap saved.2 = heap w ∧
  tag_table saved.2
  = if first_base_chain (cls self) (sender kwargs)
    then update_tags (tag_table w) (heap w (instance kwargs))
           (_get_instance_tag_cache self (instance kwargs) (heap w))
           (_get_ctype self)
    else tag_table w.
Proof.
  intros Hmemo. unfold _save.
  pose proof (_is_sender_first_base self (sender kwargs) None Hmemo) as Hs.
  pose proof (_is_sender_attname self (sender kwargs) None) as Ha.
  destruct (_is_sender self (sender kwargs) None) as [b self'].
  simpl in *. destruct Hs as (-> & Hcls & Hmemo'); [by intros ? [=]|].
  destruct (first_base_chain (cls self) (sender kwargs)); simpl.
  - split; [done|]. split; [done|]. split; [done|].
    unfold _get_ctype, _get_instance_tag_cache, cache_name.
    by rewrite Hcls, Ha.
  - done.
Qed.

(** X6: [_save] never touches an instance; it replaces the persisted tags of
    the instance, through [update_tags] with the cached string and the
    declaring model's content type, exactly when the sender is on a
    first-base chain of the declaring class, and it hands on a memo that
    still agrees. *)
Theorem _save_effect (self : TagField) (kwargs : SignalKwargs) (w : World) :
  memo_agrees self →
  let saved := _save self kwargs w in
  memo_agrees saved.1 ∧
  cls saved.1 = cls self ∧
  heap saved.2 = heap w ∧
  tag_table saved.2
  = if first_base_chain (cls self) (sender kwargs)
    then update_tags (tag_table w) (heap w (instance kwargs))
           (_get_instance_tag_cache self (instance kwargs) (heap w))
           (_get_ctype self)
    else tag_table w.
Proof. apply _save_outcome. Qed.

(** ** The descriptor *)

Lemma list_ascii_of_string_app (a b : string) :
  String.list_ascii_of_string (a +:+ b)
  = (String.list_ascii_of_string a ++ String.list_ascii_of_string b)%list.
Proof. induction a as [|c a IH]; simpl; [done|]. by rewrite IH. Qed.

Lemma string_app_inj_r (a b s : string) : a +:+ s = b +:+ s → a = b.
Proof.
  intros Heq. apply (f_equal String.list_ascii_of_string) in Heq.
  rewrite !list_ascii_of_string_app in Heq.
  apply app_inv_tail in Heq.
  rewrite <- (String.string_of_list_ascii_of_string a),
          <- (String.string_of_list_ascii_of_string b).
  by rewrite Heq.
Qed.

Lemma cache_name_inj (f g : TagField) :
  cache_name f = cache_name g → attname f = attname g.
Proof.
  unfold cache_name. intros Heq. simpl in Heq.
  injection Heq as Heq.
  change (attname f +:+ "_cache" = attname g +:+ "_cache") in Heq.
  by apply string_app_inj_r in Heq.
Qed.

(** X7: a write through the descriptor changes one attribute of one object:
    every other instance, and on the instance itself the class, the primary
    key and every attribute but the field's cache, are as before. *)
Theorem set_frame (lower : string → string) (settings : Settings) (self : TagField) (instance : oid)
    (value : option string) (h : Heap) :
  let h' := (__set__ lower settings self (Some instance) value h).2 in
  (∀ other, other ≠ instance → h' other = h other) ∧
  inst_class (h' instance) = inst_class (h instance) ∧
  pk (h' instance) = pk (h instance) ∧
  ∀ key, key ≠ cache_name self →
    attrs (h' instance) !! key = attrs (h instance) !! key.
Proof.
  simpl. unfold _set_instance_tag_cache, setattr. split; [|split; [|split]].
  - intros other Hother. by rewrite fn_lookup_insert_ne.
  - by rewrite fn_lookup_insert.
  - by rewrite fn_lookup_insert.
  - intros key Hkey. rewrite fn_lookup_insert. simpl.
    by rewrite lookup_insert_ne.
Qed.

(** X8: two tag fields of one model, under different names, keep separate
    caches: a write through one is not seen through the other. *)
Theorem set_other_field (lower : string → string) (settings : Settings) (f g : TagField) (instance : oid)
    (owner : pyclass) (value : option string) (w : World) :
  attname f ≠ attname g →
  __get__ g (Some instance) owner
    {| heap := (__set__ lower settings f (Some instance) value (heap w)).2;
       tag_table := tag_table w |}
  = __get__ g (Some instance) owner w.
Proof.
  intros Hnames. simpl.
  unfold _get_instance_tag_cache, _set_instance_tag_cache, getattr_or_None, setattr.
  rewrite fn_lookup_insert. simpl.
  rewrite lookup_insert_ne; [done|].
  intros Heq. by apply Hnames, cache_name_inj.
Qed.

(** X10: the class-level read, [Model.tags], depends on the persisted tags
    alone: neither a write to an instance nor the post-init refresh of an
    instance changes it. *)
Theorem class_read_independent (lower : string → string) (settings : Settings) (self : TagField)
    (instance : oid) (kwargs : SignalKwargs) (value : option string)
    (owner : pyclass) (w : World) :
  __get__ self None owner
    {| heap := (__set__ lower settings self (Some instance) value (heap w)).2;
       tag_table := tag_table w |}
  = __get__ self None owner w ∧
  __get__ self None owner (_update self kwargs w) = __get__ self None owner w.
Proof.
  split; [done|]. unfold _update, _update_instance_tag_cache.
  by destruct (pk _).
Qed.

(** X11: the post-init refresh writes one attribute of one object: the
    persisted tags, every other instance, and on the instance itself the
    class, the primary key and every attribute but the field's cache, are as
    before. *)
Theorem update_frame (self : TagField) (kwargs : SignalKwargs) (w : World) :
  let w' := _update self kwargs w in
  let obj := instance kwargs in
  tag_table w' = tag_table w ∧
  (∀ other, other ≠ obj → heap w' other = heap w other) ∧
  inst_class (heap w' obj) = inst_class (heap w obj) ∧
  pk (heap w' obj) = pk (heap w obj) ∧
  ∀ key, key ≠ cache_name self →
    attrs (heap w' obj) !! key = attrs (heap w obj) !! key.
Proof.
  simpl. unfold _update, _update_instance_tag_cache.
  destruct (pk (heap w (instance kwargs))) eqn:Hpk; simpl; [|done].
  unfold _set_instance_tag_cache, setattr. split; [done|].
  split; [|split; [|split]].
  - intros other Hother. by rewrite fn_lookup_insert_ne.
  - by rewrite fn_lookup_insert.
  - by rewrite fn_lookup_insert.
  - intros key Hkey. rewrite fn_lookup_insert. simpl.
    by rewrite lookup_insert_ne.
Qed.

(** X12: for an instance with a primary key the post-init refresh overrides
    whatever was assigned before: the field then reads the persisted tags,
    not the assigned string. *)
Theorem update_overrides_set (lower : string → string) (settings : Settings) (self : TagField)
    (kwargs : SignalKwargs) (owner : pyclass) (value : option string)
    (k : Z) (w : World) :
  pk (heap w (instance kwargs)) = Some k →
  let obj := instance kwargs in
  let assigned := {| heap := (__set__ lower settings self (Some obj) value (heap w)).2;
                     tag_table := tag_table w |} in
  __get__ self (Some obj) owner (_update self kwargs assigned)
  = __get__ self (Some obj) owner (_update self kwargs w).
Proof.
  intros Hpk. simpl. unfold _update, _update_instance_tag_cache. simpl.
  unfold _set_instance_tag_cache at 1. rewrite pk_setattr, Hpk. simpl.
  unfold _get_instance_tag_cache, _set_instance_tag_cache.
  rewrite !getattr_setattr.
  unfold get_for_object, setattr. rewrite fn_lookup_insert. simpl.
  by rewrite Hpk.
Qed.

(** X13: reading the field on an instance that carries no cache attribute
    raises nothing and gives [None]. *)
Theorem get_without_cache (self : TagField) (instance : oid) (owner : pyclass)
    (w : World) :
  attrs (heap w instance) !! cache_name self = None →
  __get__ self (Some instance) owner w = None.
Proof.
  intros Hmissing. simpl. unfold _get_instance_tag_cache, getattr_or_None.
  by rewrite Hmissing.
Qed.

(** X14: a save that follows an assignment persists the assigned string,
    lower-cased when [FORCE_LOWERCASE_TAGS] is on: for a sender on a
    first-base chain of the declaring class, the storage is updated with that
    string and not with what the cache held before. *)
Theorem set_then_save (lower : string → string) (settings : Settings) (self : TagField)
    (kwargs : SignalKwargs) (value : string) (w : World) :
  memo_agrees self →
  first_base_chain (cls self) (sender kwargs) = true →
  let obj := instance kwargs in
  let assigned :=
    {| heap := (__set__ lower settings self (Some obj) (Some value) (heap w)).2;
       tag_table := tag_table w |} in
  tag_table (_save self kwargs assigned).2
  = update_tags (tag_table w) (heap assigned obj)
      (Some (if FORCE_LOWERCASE_TAGS settings then lower value else value))
      (_get_ctype self).
Proof.
  intros Hmemo Hchain. cbv zeta.
  pose proof (_save_outcome self kwargs
                {| heap := (__set__ lower settings self (Some (instance kwargs))
                              (Some value) (heap w)).2;
                   tag_table := tag_table w |} Hmemo) as (_ & _ & _ & Htable).
  rewrite Htable, Hchain. simpl.
  unfold _get_instance_tag_cache, _set_instance_tag_cache.
  rewrite getattr_setattr. by destruct (FORCE_LOWERCASE_TAGS settings).
Qed.

(** ** [formfield] *)

(** X15: [formfield] hands the caller's keyword arguments on to the base
    class unchanged and adds [form_class], set to the tag form field unless
    the caller names another form class. *)
Theorem formfield_defaults {V F : Type} (forms_TagField : V)
    (super_formfield : TagField → gmap string V → F) (self : TagField)
    (kwargs : gmap string V) :
  ∃ defaults,
    formfield forms_TagField super_formfield self kwargs
    = super_formfield self defaults ∧
    defaults !! "form_class"
    = Some (default forms_TagField (kwargs !! "form_class")) ∧
    ∀ key, key ≠ "form_class" → defaults !! key = kwargs !! key.
Proof.
  eexists. split; [reflexivity|]. split.
  - rewrite lookup_union. destruct (kwargs !! "form_class"); simpl.
    + by rewrite lookup_singleton_eq.
    + by rewrite lookup_singleton_eq.
  - intros key Hkey. rewrite lookup_union, lookup_singleton_ne by done.
    by destruct (kwargs !! key).
Qed.

(** ** The properties on the example site *)

Section site.

Import Site.

Lemma _is_sender_single_inheritance_witness :
  single_inheritance Bookmark = true ∧
  (_is_sender (after_queries tags [Article; Mixin]) Bookmark None).1
  = issubclass Bookmark Link.
Proof.
  split; [reflexivity|].
  apply (_is_sender_single_inheritance no_kwargs Link "tags" [Article; Mixin]
           Bookmark).
  reflexivity.
Defined.

Lemma _is_sender_rejects_unrelated_witness :
  issubclass Mixin Link = false ∧
  (_is_sender (after_queries tags [Bookmark]) Mixin None).1 = false.
Proof.
  split; [reflexivity|].
  apply (_is_sender_rejects_unrelated no_kwargs Link "tags" [Bookmark] Mixin).
  reflexivity.
Defined.

Lemma _save_effect_witness :
  memo_agrees tags ∧
  tag_table (_save tags {| sender := Bookmark; instance := 2%positive |} start).2
  = update_tags ∅ (live 2%positive) (Some "django python") (get_for_model Link).
Proof.
  assert (memo_agrees tags) as Hmemo by apply memo_agrees_fresh.
  split; [exact Hmemo|].
  exact (proj2 (proj2 (proj2
    (_save_effect tags {| sender := Bookmark; instance := 2%positive |}
       start Hmemo)))).
Defined.

Lemma set_then_save_witness :
  memo_agrees tags ∧
  first_base_chain (cls tags) Bookmark = true ∧
  dom (tag_table
         (_save tags {| sender := Bookmark; instance := 2%positive |}
            {| heap := (__set__ ascii_lower {| FORCE_LOWERCASE_TAGS := true |} tags
                          (Some 2%positive) (Some "Rocq") live).2;
               tag_table := ∅ |}).2)
  = {[ "rocq" ]}.
Proof.
  assert (memo_agrees tags) as Hmemo by apply memo_agrees_fresh.
  split; [exact Hmemo|]. split; [reflexivity|].
  etransitivity;
    [exact (f_equal dom
       (set_then_save ascii_lower {| FORCE_LOWERCASE_TAGS := true |} tags
          {| sender := Bookmark; instance := 2%positive |} "Rocq" start
          Hmemo eq_refl))|].
  vm_compute. reflexivity.
Defined.

(** A second tag field of the same model. *)
Lemma set_other_field_witness :
  let labels := contribute_to_class (__init__ no_kwargs) Link "labels" in
  attname labels ≠ attname tags ∧
  __get__ tags (Some 1%positive) Article
    {| heap := (__set__ ascii_lower {| FORCE_LOWERCASE_TAGS := false |} labels
                  (Some 1%positive) (Some "urgent") live).2;
       tag_table := ∅ |}
  = Some "django python".
Proof.
  assert (attname (contribute_to_class (__init__ no_kwargs) Link "labels")
          ≠ attname tags) as Hnames by discriminate.
  split; [exact Hnames|].
  exact (set_other_field ascii_lower {| FORCE_LOWERCASE_TAGS := false |} _ tags
           1%positive Article (Some "urgent") start Hnames).
Defined.

Lemma update_overrides_set_witness :
  let loaded := {| sender := Link; instance := 3%positive |} in
  pk (live 3%positive) = Some 1 ∧
  __get__ tags (Some 3%positive) Link
    (_update tags loaded
       {| heap := (__set__ ascii_lower {| FORCE_LOWERCASE_TAGS := false |} tags
                     (Some 3%positive) (Some "draft") live).2;
          tag_table := db_tags site_db |})
  = Some "django python".
Proof.
  split; [reflexivity|].
  etransitivity;
    [exact (update_overrides_set ascii_lower {| FORCE_LOWERCASE_TAGS := false |} tags
              {| sender := Link; instance := 3%positive |} Link (Some "draft") 1
              {| heap := live; tag_table := db_tags site_db |} eq_refl)|].
  vm_compute. reflexivity.
Defined.

Lemma get_without_cache_witness :
  attrs (live 3%positive) !! cache_name tags = None ∧
  __get__ tags (Some 3%positive) Link start = None.
Proof.
  split; [reflexivity|].
  apply get_without_cache. reflexivity.
Defined.

End site.

End FieldsMore.

(** * Further properties of the views *)

Module ViewsMore.

Import Views ViewsFacts.

(** ** [tagged_object_list] *)

Section listing.

Variable object_list : Request → list Row → Kwargs → Result Response.

(** X16: the argument checks come in order and each has its own message: a
    call without queryset or model is refused for that, whether or not it
    has a tag; a call with one but without tag is refused for the tag. *)
Theorem missing_argument_message (db : Database) (request : Request)
    (queryset_or_model : option QuerysetOrModel) (tag : option string)
    (related_tags related_tag_counts : bool) (kwargs : Kwargs) :
  let outcome :=
    tagged_object_list object_list db request queryset_or_model tag
      related_tags related_tag_counts kwargs in
  (supplied queryset_or_model (kw_queryset_or_model kwargs) = None →
   outcome = ([], inl (AttributeError
     "tagged_object_list must be called with a queryset or a model."))) ∧
  (is_Some (supplied queryset_or_model (kw_queryset_or_model kwargs)) →
   supplied tag (kw_tag kwargs) = None →
   outcome = ([], inl (AttributeError
     "tagged_object_list must be called with a tag."))).
Proof.
  simpl. unfold tagged_object_list, pop_queryset_or_model, pop_tag.
  destruct queryset_or_model as [q|], (kw_queryset_or_model kwargs) as [q'|],
    tag as [t|], (kw_tag kwargs) as [t'|] eqn:Hkw; simpl;
    (split; [intros Hq|intros [? Hq] Ht]); try discriminate;
    eff_simpl; rewrite ?Hkw; eff_simpl; reflexivity.
Qed.

(** X17: a call that gets past its checks with a tag that resolves asks the
    tag storage for the tag, then for the tagged items, then, only when
    [related_tags] is set, for the related tags with the [counts] flag it
    was given, and calls the generic view last, once, on the tagged items. *)
Theorem listing_calls (db : Database) (request : Request)
    (queryset_or_model : option QuerysetOrModel) (tag : option string)
    (related_tags related_tag_counts : bool) (kwargs : Kwargs)
    (q : QuerysetOrModel) (name tag_instance : string) :
  supplied queryset_or_model (kw_queryset_or_model kwargs) = Some q →
  supplied tag (kw_tag kwargs) = Some name →
  get_tag (db_tags db) name = Some tag_instance →
  ∃ kwargs',
    (tagged_object_list object_list db request queryset_or_model tag
       related_tags related_tag_counts kwargs).1
    = [GetTag name; GetByModel q tag_instance] ++
      (if related_tags
       then [RelatedForModel tag_instance q related_tag_counts] else []) ++
      [ObjectList request (get_by_model db q tag_instance) kwargs'].
Proof.
  intros Hq Htag Hresolved.
  unfold tagged_object_list, pop_queryset_or_model, pop_tag.
  destruct queryset_or_model as [q0|], (kw_queryset_or_model kwargs) as [q'|],
    tag as [t|], (kw_tag kwargs) as [t'|] eqn:Hkw;
    simpl in Hq, Htag; try discriminate Hq; try discriminate Htag;
    injection Hq as ->; injection Htag as ->;
    eff_simpl; rewrite ?Hkw; eff_simpl; rewrite Hresolved;
    destruct related_tags; eff_simpl; eexists; reflexivity.
Qed.

(** X18: the keyword arguments the generic view receives.  The context holds
    the resolved tag under [tag] and, when [related_tags] is set, the related
    tags under [related_tags]; the caller's other context entries and other
    options are passed on as they came; an argument that was taken out of
    the keyword arguments is not passed a second time. *)
Theorem listing_kwargs (db : Database) (request : Request)
    (queryset_or_model : option QuerysetOrModel) (tag : option string)
    (related_tags related_tag_counts : bool) (kwargs : Kwargs)
    (q : QuerysetOrModel) (name tag_instance : string) :
  supplied queryset_or_model (kw_queryset_or_model kwargs) = Some q →
  supplied tag (kw_tag kwargs) = Some name →
  get_tag (db_tags db) name = Some tag_instance →
  ∃ kwargs' context,
    (tagged_object_list object_list db request queryset_or_model tag
       related_tags related_tag_counts kwargs).2
    = object_list request (get_by_model db q tag_instance) kwargs' ∧
    kw_rest kwargs' = kw_rest kwargs ∧
    kw_queryset_or_model kwargs'
    = match queryset_or_model with
      | Some _ => kw_queryset_or_model kwargs
      | None => None
      end ∧
    kw_tag kwargs'
    = match tag with Some _ => kw_tag kwargs | None => None end ∧
    kw_extra_context kwargs' = Some context ∧
    context !! "tag" = Some (CtxTag tag_instance) ∧
    context !! "related_tags"
    = (if related_tags
       then Some (CtxRelatedTags
                    (related_for_model db tag_instance q related_tag_counts))
       else default ∅ (kw_extra_context kwargs) !! "related_tags") ∧
    ∀ key, key ≠ "tag" → key ≠ "related_tags" →
      context !! key = default ∅ (kw_extra_context kwargs) !! key.
Proof.
  intros Hq Htag Hresolved.
  unfold tagged_object_list, pop_queryset_or_model, pop_tag.
  destruct queryset_or_model as [q0|],
    (kw_queryset_or_model kwargs) as [q'|] eqn:Hkq,
    tag as [t|], (kw_tag kwargs) as [t'|] eqn:Hkw;
    simpl in Hq, Htag; try discriminate Hq; try discriminate Htag;
    injection Hq as ->; injection Htag as ->;
    eff_simpl; rewrite ?Hkw; eff_simpl; rewrite Hresolved;
    destruct related_tags, (kw_extra_context kwargs) as [c|] eqn:Hctx;
    eff_simpl; rewrite ?Hctx; eff_simpl;
    eexists _, _;
    (split; [reflexivity|]); simpl;
    (split; [reflexivity|]); (split; [by rewrite ?Hkq|]);
    (split; [by rewrite ?Hkw|]); (split; [reflexivity|]);
    (split; [by simplify_map_eq|]); (split; [by simplify_map_eq|]);
    intros key ? ?; by simplify_map_eq.
Qed.

End listing.

(** ** [tags_for_object] *)

#[local] Instance count_ge_total : Total count_ge.
Proof. intros a b. unfold count_ge. lia. Qed.

#[local] Instance count_ge_trans : Transitive count_ge.
Proof. intros a b c. unfold count_ge. lia. Qed.

Section summary.

Variable ordered_by : string → list Row → list Row.

Hypothesis ordered_by_permutes : ∀ key rows, ordered_by key rows ≡ₚ rows.

(** X19: the entries come by falling count: no entry has a smaller count
    than an entry after it. *)
Theorem tag_info_sorted (db : Database) (model : pyclass) (order_by : string) :
  StronglySorted (λ e1 e2, (info_count e2 ≤ info_count e1)%nat)
    (tag_info ordered_by db model order_by).
Proof.
  unfold tag_info, order_by_count_desc.
  apply (StronglySorted_fmap _ count_ge); [by intros x y|].
  apply StronglySorted_merge_sort; apply _.
Qed.

(** X20: every entry has a count of at least one and a tag with an
    association under the model's own content type: a tag without such an
    association has no entry, however it is used under other content types. *)
Theorem tag_info_count_positive (db : Database) (model : pyclass)
    (order_by : string) (e : TagInfo) :
  e ∈ tag_info ordered_by db model order_by →
  (1 ≤ info_count e)%nat ∧
  ∃ o, associated (db_tags db) (get_for_model model) (info_tag e) o.
Proof.
  intros (t & n & Hin & ->)%elem_of_tag_info. simpl.
  apply elem_of_annotate_count_items in Hin as (_ & Hne & ->).
  split.
  - assert (size (tagged_instances (db_tags db) (get_for_model model) t) ≠ 0%nat);
      [|lia].
    rewrite size_non_empty_iff. by intros ?%leibniz_equiv.
  - apply set_choose_L in Hne as [o Ho]. exists o.
    by apply elem_of_tagged_instances.
Qed.

(** X21: the summary is empty just when no tag has an association under the
    model's own content type, whatever rows the model's table has. *)
Theorem tag_info_empty (db : Database) (model : pyclass) (order_by : string) :
  tag_info ordered_by db model order_by = [] ↔
  ∀ tag o, ¬ associated (db_tags db) (get_for_model model) tag o.
Proof.
  clear ordered_by_permutes. split.
  - intros Hempty tag o Ho.
    assert (tagged_instances (db_tags db) (get_for_model model) tag ≠ ∅) as Hne.
    { apply elem_of_tagged_instances in Ho. set_solver. }
    assert ({| info_tag := tag;
               info_count := size (tagged_instances (db_tags db)
                                     (get_for_model model) tag);
               info_items := take 5 (ordered_by order_by
                 (tagged_rows db model (get_for_model model) tag)) |}
            ∈ tag_info ordered_by db model order_by) as Hin.
    { apply elem_of_tag_info. eexists tag, _. split; [|reflexivity].
      apply elem_of_annotate_count_items. split; [|done].
      unfold items. destruct (db_tags db !! tag) as [its|] eqn:Hl; [done|].
      exfalso. apply Hne. apply values_object_id_empty.
      unfold items. rewrite Hl. simpl. set_solver. }
    rewrite Hempty in Hin. by apply elem_of_nil in Hin.
  - intros Hnone.
    destruct (tag_info ordered_by db model order_by) as [|e l] eqn:Hinfo; [done|].
    assert (e ∈ tag_info ordered_by db model order_by) as Hin.
    { rewrite Hinfo. apply list_elem_of_here. }
    apply elem_of_tag_info in Hin as (t & n & Hin & _).
    apply elem_of_annotate_count_items in Hin as (_ & Hne & _).
    apply set_choose_L in Hne as [o Ho].
    by apply elem_of_tagged_instances, Hnone in Ho.
Qed.

(** X22: when the model's table lists no row twice, no entry shows an
    instance twice. *)
Theorem tag_info_items_NoDup (db : Database) (model : pyclass)
    (order_by : string) (e : TagInfo) :
  NoDup (objects db model) →
  e ∈ tag_info ordered_by db model order_by →
  NoDup (info_items e).
Proof.
  intros Hrows (t & n & _ & ->)%elem_of_tag_info. simpl.
  eapply sublist_NoDup; [|apply sublist_take].
  rewrite ordered_by_permutes. unfold tagged_rows.
  by apply NoDup_filter.
Qed.

(** X23: a tag held by five instances or fewer shows them all: the items of
    its entry are the tagged rows, in the ordering asked for. *)
Theorem tag_info_items_all (db : Database) (model : pyclass)
    (order_by : string) (e : TagInfo) :
  e ∈ tag_info ordered_by db model order_by →
  (length (tagged_rows db model (get_for_model model) (info_tag e)) ≤ 5)%nat →
  info_items e
  = ordered_by order_by (tagged_rows db model (get_for_model model) (info_tag e)) ∧
  info_items e ≡ₚ tagged_rows db model (get_for_model model) (info_tag e).
Proof.
  intros (t & n & _ & ->)%elem_of_tag_info. simpl. intros Hlen.
  rewrite take_ge; [by split|].
  by rewrite ordered_by_permutes.
Qed.

(** X24: when the rows of the model's table have distinct ids, an entry
    never shows more instances than it counts. *)
Theorem tag_info_items_le_count (db : Database) (model : pyclass)
    (order_by : string) (e : TagInfo) :
  NoDup (row_id <$> objects db model) →
  e ∈ tag_info ordered_by db model order_by →
  (length (info_items e) ≤ info_count e)%nat.
Proof.
  intros Hids (t & n & Hin & ->)%elem_of_tag_info. simpl.
  apply elem_of_annotate_count_items in Hin as (_ & _ & ->).
  set (rows := tagged_rows db model (get_for_model model) t).
  transitivity (length rows).
  { rewrite <- (Permutation_length (ordered_by_permutes order_by rows)).
    apply sublist_length, sublist_take. }
  assert (NoDup (row_id <$> rows)) as Hnodup.
  { eapply sublist_NoDup; [exact Hids|].
    apply fmap_sublist. unfold rows, tagged_rows. apply sublist_filter. }
  rewrite <- (length_fmap row_id), <- (size_list_to_set (C:=gset Z)) by done.
  apply subseteq_size. intros o [r [-> Hr]]%elem_of_list_to_set%list_elem_of_fmap.
  unfold rows, tagged_rows in Hr. by apply list_elem_of_filter in Hr as [? _].
Qed.

(** X25: the context handed to the template holds every entry of
    [extra_context], also one named [tag_info], which then replaces the
    computed list; it holds nothing else but [tag_info], and the template
    name and the request are passed on as given. *)
Theorem tags_for_object_extra_context (db : Database) (request : Request)
    (model : pyclass) (order_by : option string) (template : option string)
    (extra_context : option Context) :
  let response :=
    tags_for_object ordered_by db request model order_by template extra_context in
  template_name response = template ∧
  context_request response = request ∧
  (∀ key v, default ∅ extra_context !! key = Some v →
            context response !! key = Some v) ∧
  (∀ key, key ≠ "tag_info" →
          context response !! key = default ∅ extra_context !! key) ∧
  is_Some (context response !! "tag_info").
Proof.
  simpl. split; [done|]. split; [done|]. split; [|split].
  - intros key v Hkey. by apply lookup_union_Some_l.
  - intros key Hkey. rewrite lookup_union, lookup_singleton_ne by done.
    by destruct (default ∅ extra_context !! key).
  - rewrite lookup_union, lookup_singleton_eq.
    destruct (default ∅ extra_context !! "tag_info"); simpl; eauto.
Qed.

End summary.

(** ** The properties on the example site *)

Section site.

Import Site.

Lemma listing_calls_witness :
  get_tag (db_tags site_db) "python" = Some "python" ∧
  ∃ kwargs',
    (tagged_object_list render_list site_db "/links/tag/python/"
       (Some (AModel Link)) (Some "python") true false no_view_kwargs).1
    = [GetTag "python"; GetByModel (AModel Link) "python";
       RelatedForModel "python" (AModel Link) false;
       ObjectList "/links/tag/python/" (get_by_model site_db (AModel Link) "python")
         kwargs'].
Proof.
  split; [reflexivity|].
  apply (listing_calls render_list site_db "/links/tag/python/"
           (Some (AModel Link)) (Some "python") true false no_view_kwargs
           (AModel Link) "python" "python" eq_refl eq_refl eq_refl).
Defined.

Lemma listing_kwargs_witness :
  get_tag (db_tags site_db) "python" = Some "python" ∧
  ∃ kwargs' context,
    (tagged_object_list render_list site_db "/links/tag/python/"
       (Some (AModel Link)) (Some "python") false true no_view_kwargs).2
    = render_list "/links/tag/python/"
        (get_by_model site_db (AModel Link) "python") kwargs' ∧
    kw_extra_context kwargs' = Some context ∧
    context !! "tag" = Some (CtxTag "python") ∧
    context !! "related_tags" = None.
Proof.
  split; [reflexivity|].
  destruct (listing_kwargs render_list site_db "/links/tag/python/"
              (Some (AModel Link)) (Some "python") false true no_view_kwargs
              (AModel Link) "python" "python" eq_refl eq_refl eq_refl)
    as (kwargs' & context & Hcall & _ & _ & _ & Hctx & Htag & Hrel & _).
  exists kwargs', context. auto.
Defined.

Definition django_entry : TagInfo :=
  {| info_tag := "django"; info_count := 2;
     info_items := [ {| row_id := 1; row_repr := "first" |};
                     {| row_id := 2; row_repr := "second" |} ] |}.

Lemma django_entry_listed : django_entry ∈ tag_info table_order site_db Link "?".
Proof. rewrite tag_info_links. apply list_elem_of_here. Qed.

Lemma table_order_permutes : ∀ key rows, table_order key rows ≡ₚ rows.
Proof. reflexivity. Qed.

Lemma tag_info_count_positive_witness :
  django_entry ∈ tag_info table_order site_db Link "?" ∧
  (1 ≤ info_count django_entry)%nat.
Proof.
  split; [apply django_entry_listed|].
  apply (tag_info_count_positive table_order site_db Link "?" django_entry
           django_entry_listed).
Defined.

Lemma tag_info_items_NoDup_witness :
  NoDup (objects site_db Link) ∧
  NoDup (info_items django_entry).
Proof.
  assert (NoDup (objects site_db Link)) as Hrows.
  { vm_compute. repeat constructor; set_solver. }
  split; [exact Hrows|].
  apply (tag_info_items_NoDup table_order table_order_permutes site_db Link "?"
           django_entry Hrows django_entry_listed).
Defined.

Lemma tag_info_items_all_witness :
  (length (tagged_rows site_db Link (get_for_model Link) "django") ≤ 5)%nat ∧
  info_items django_entry
  ≡ₚ tagged_rows site_db Link (get_for_model Link) "django".
Proof.
  assert (length (tagged_rows site_db Link (get_for_model Link) "django") ≤ 5)%nat
    as Hlen by (vm_compute; lia).
  split; [exact Hlen|].
  apply (tag_info_items_all table_order table_order_permutes site_db Link "?"
           django_entry django_entry_listed Hlen).
Defined.

Lemma tag_info_items_le_count_witness :
  NoDup (row_id <$> objects site_db Link) ∧
  (length (info_items django_entry) ≤ info_count django_entry)%nat.
Proof.
  assert (NoDup (row_id <$> objects site_db Link)) as Hids.
  { vm_compute. repeat constructor; set_solver. }
  split; [exact Hids|].
  apply (tag_info_items_le_count table_order table_order_permutes site_db Link
           "?" django_entry Hids django_entry_listed).
Defined.

End site.

End ViewsMore.
